(** * Neighbourhood Cleaning Rule

    A shallow embedding of
    [imblearn/under_sampling/prototype_selection/neighbourhood_cleaning_rule.py]
    and the properties of its [fit] and [_sample] methods.

    The sampler object is a record of its attributes; the methods are
    computations in a state-and-exception monad over that record, so that an
    attribute written before a [raise] stays written, as in Python.  The
    three collaborators that live outside the file (the inherited [fit], the
    Edited Nearest Neighbours sampler and the k-neighbours query) are section
    variables.

    Conventions: class labels are integers, and a label is true for [np.all]
    when it is not zero; [threshold_cleaning] is a rational and the product
    [X.shape[0] * threshold_cleaning] is exact; [n_neighbors] is an integer;
    one-dimensional arrays are lists and an index array is a list of naturals;
    the message sent to the logger on line 207 is not part of the model. *)

From Stdlib Require Import ZArith QArith Lia Lqa Sorted.
From stdpp Require Import base list strings gmap.
Close Scope Q_scope.

(** ** Exceptions and results *)

Inductive exception : Type :=
| NotImplementedError
| ValueError
| IndexError
| AttributeError
| UnboundLocalError
| OtherError (name : string).

Inductive result (A : Type) : Type :=
| Ok (a : A)
| Raise (e : exception).
Arguments Ok {A} a.
Arguments Raise {A} e.

Definition rbind {A B} (r : result A) (k : A -> result B) : result B :=
  match r with
  | Ok a => k a
  | Raise e => Raise e
  end.

Fixpoint result_mapM {A B} (f : A -> result B) (l : list A) : result (list B) :=
  match l with
  | [] => Ok []
  | a :: l' =>
      rbind (f a) (fun b => rbind (result_mapM f l') (fun bs => Ok (b :: bs)))
  end.

(** ** The method monad: the object is threaded, exceptions keep the writes *)

Definition Py (S A : Type) : Type := S -> S * result A.

Definition ret {S A} (a : A) : Py S A := fun s => (s, Ok a).

Definition bind {S A B} (m : Py S A) (k : A -> Py S B) : Py S B :=
  fun s =>
    match m s with
    | (s', Ok a) => k a s'
    | (s', Raise e) => (s', Raise e)
    end.

Definition raise {S A} (e : exception) : Py S A := fun s => (s, Raise e).
Definition get {S} : Py S S := fun s => (s, Ok s).
Definition put {S} (s' : S) : Py S unit := fun _ => (s', Ok tt).
Definition lift {S A} (r : result A) : Py S A := fun s => (s, r).

(** Reading an attribute that was never assigned. *)
Definition attr {S A} (o : option A) : Py S A :=
  match o with
  | Some a => ret a
  | None => raise AttributeError
  end.

Notation "'do' x <- m ; k" := (bind m (fun x => k))
  (at level 10, x name, m at level 100, k at level 200,
   format "'[v' 'do'  x  <-  m ; '/' k ']'").
Notation "'do' ' p <- m ; k" := (bind m (fun x => match x with p => k end))
  (at level 10, p pattern, m at level 100, k at level 200).
Notation "m ;; k" := (bind m (fun _ => k))
  (at level 100, k at level 200, right associativity).

(** ** numpy operations on one-dimensional arrays *)

(** [np.ones(n, dtype=bool)] *)
Definition np_ones (n : nat) : list bool := replicate n true.

(** [mask[idx] = False]: every index is bounds-checked. *)
Definition in_bounds (n : nat) (idx : list nat) : bool :=
  forallb (fun i => i <? n) idx.

Definition assign_false (mask : list bool) (idx : list nat) : result (list bool) :=
  if in_bounds (length mask) idx
  then Ok (foldr (fun i m => <[i:=false]> m) mask idx)
  else Raise IndexError.

(** [np.flatnonzero(mask)] *)
Fixpoint flatnonzero_from (i : nat) (mask : list bool) : list nat :=
  match mask with
  | [] => []
  | b :: mask' =>
      if b then i :: flatnonzero_from (S i) mask'
      else flatnonzero_from (S i) mask'
  end.

Definition flatnonzero (mask : list bool) : list nat := flatnonzero_from 0 mask.

(** [a[idx]] with an integer index array *)
Definition np_take {A} (a : list A) (idx : list nat) : result (list A) :=
  result_mapM (fun i => match a !! i with
                        | Some v => Ok v
                        | None => Raise IndexError
                        end) idx.

(** [a[mask]] with a boolean mask of the same length *)
Fixpoint select {A} (a : list A) (mask : list bool) : list A :=
  match a, mask with
  | v :: a', b :: mask' => if b then v :: select a' mask' else select a' mask'
  | _, _ => []
  end.

Definition np_mask {A} (a : list A) (mask : list bool) : result (list A) :=
  if length a =? length mask then Ok (select a mask) else Raise IndexError.

(** [np.unique]: the sorted distinct values *)
Fixpoint insert_sorted (x : nat) (l : list nat) : list nat :=
  match l with
  | [] => [x]
  | h :: t =>
      if x <? h then x :: l
      else if x =? h then l
      else h :: insert_sorted x t
  end.

Definition np_unique (l : list nat) : list nat := foldr insert_sorted [] l.

Definition np_union1d (a b : list nat) : list nat := np_unique (a ++ b).

(** ** [collections.Counter] and [min(..., key=...)] *)

(** A Counter keeps its keys in first-insertion order. *)
Fixpoint counter_incr (c : Z) (cnt : list (Z * nat)) : list (Z * nat) :=
  match cnt with
  | [] => [(c, 1)]
  | (k, n) :: cnt' =>
      if (k =? c)%Z then (k, S n) :: cnt' else (k, n) :: counter_incr c cnt'
  end.

Definition Counter (y : list Z) : list (Z * nat) :=
  fold_left (fun cnt c => counter_incr c cnt) y [].

(** [cnt[c]]: a key that is not there counts 0. *)
Fixpoint counter_get (c : Z) (cnt : list (Z * nat)) : nat :=
  match cnt with
  | [] => 0
  | (k, n) :: cnt' => if (k =? c)%Z then n else counter_get c cnt'
  end.

(** The shape of a Counter: distinct keys, positive counts. *)
Definition counter_wf (cnt : list (Z * nat)) : Prop :=
  NoDup (map fst cnt) /\ Forall (fun kn => 0 < kn.2) cnt.

(** [min] keeps the first of several smallest items. *)
Fixpoint min_from (best : Z * nat) (cnt : list (Z * nat)) : Z * nat :=
  match cnt with
  | [] => best
  | kn :: cnt' => if kn.2 <? best.2 then min_from kn cnt' else min_from best cnt'
  end.

Definition min_key (cnt : list (Z * nat)) : result Z :=
  match cnt with
  | [] => Raise ValueError
  | kn :: cnt' => Ok (min_from kn cnt').1
  end.

(** ** [scipy.stats.mode] along a row: the most frequent label, the smallest
    one among equally frequent labels *)

Definition occ (c : Z) (l : list Z) : nat := length (filter (fun x => x = c) l).

Fixpoint mode_from (best : Z) (row cands : list Z) : Z :=
  match cands with
  | [] => best
  | c :: cands' =>
      if (occ best row <? occ c row)
         || ((occ best row =? occ c row) && (c <? best)%Z)
      then mode_from c row cands'
      else mode_from best row cands'
  end.

(** An empty row has no mode; [0] stands for it (the rows met here have
    [n_neighbors] entries). *)
Definition mode_row (row : list Z) : Z :=
  match row with
  | [] => 0%Z
  | c :: cands => mode_from c row cands
  end.

(** The unanimity test of the ['all'] selection as the documentation words
    it: every neighbour bears the minority label.  [nnhood_bool_of] below is
    what the code computes instead. *)
Definition all_neighbours_minority (class_minority : Z)
    (nnhood_label : list (list Z)) : list bool :=
  map (forallb (fun l => (l =? class_minority)%Z)) nnhood_label.

(** ** Rational comparison *)

Definition Qlt_bool (a b : Q) : bool := negb (Qle_bool b a).

(** ** Constructor parameters that are only forwarded *)

Inductive ratio_spec : Type :=
| RatioStr (s : string)
| RatioDict (d : gmap Z nat).

Inductive random_state_spec : Type :=
| RandomNone
| RandomSeed (seed : Z)
| RandomInstance (state : Z).

Definition SEL_KIND : list string := ["all"; "mode"]%string.

Section NeighbourhoodCleaningRule.

(** The feature rows are never inspected by the sampler itself. *)
Context {Row : Type}.

(** ** The neighbour-search provider ([sklearn.neighbors.NearestNeighbors]) *)

Record NearestNeighbors : Type := mkNearestNeighbors {
  nn_n_neighbors : nat;
  nn_n_jobs : Z;
  nn_fit_X : option (list Row)
}.

(** [nn.set_params(n_jobs=...)] *)
Definition nn_set_n_jobs (jobs : Z) (nn : NearestNeighbors) : NearestNeighbors :=
  {| nn_n_neighbors := nn_n_neighbors nn;
     nn_n_jobs := jobs;
     nn_fit_X := nn_fit_X nn |}.

(** [nn.fit(X)] *)
Definition nn_fit (X : list Row) (nn : NearestNeighbors) : NearestNeighbors :=
  {| nn_n_neighbors := nn_n_neighbors nn;
     nn_n_jobs := nn_n_jobs nn;
     nn_fit_X := Some X |}.

(** Modelled from the spec: [check_neighbors_object] of [imblearn.utils] is
    not in the file.  A literal count becomes a provider that searches for
    [additional_neighbor] more points.  [n_neighbors] is an integer here: an
    estimator passed in its place would be one object shared by the sampler,
    its [nn_] attribute and the Edited Nearest Neighbours collaborator, whose
    code is not in the file either. *)
Definition check_neighbors_object (n_neighbors additional_neighbor : nat)
  : NearestNeighbors :=
  {| nn_n_neighbors := n_neighbors + additional_neighbor;
     nn_n_jobs := 1;
     nn_fit_X := None |}.

(** ** The sampler object *)

Record NeighbourhoodCleaningRule : Type := mkNeighbourhoodCleaningRule {
  (* constructor parameters *)
  ratio : ratio_spec;
  return_indices : bool;
  random_state : random_state_spec;
  size_ngh : option nat;
  n_neighbors : nat;
  kind_sel : string;
  threshold_cleaning : Q;
  n_jobs : Z;
  (* attributes set by fitting *)
  X_shape_ : option (nat * nat);
  ratio_ : option (gmap Z nat);
  nn_ : option NearestNeighbors
}.

(** [self.nn_ = v] *)
Definition set_nn_ (v : NearestNeighbors) (self : NeighbourhoodCleaningRule)
  : NeighbourhoodCleaningRule :=
  {| ratio := ratio self;
     return_indices := return_indices self;
     random_state := random_state self;
     size_ngh := size_ngh self;
     n_neighbors := n_neighbors self;
     kind_sel := kind_sel self;
     threshold_cleaning := threshold_cleaning self;
     n_jobs := n_jobs self;
     X_shape_ := X_shape_ self;
     ratio_ := ratio_ self;
     nn_ := Some v |}.

Definition set_random_state (v : random_state_spec) (self : NeighbourhoodCleaningRule)
  : NeighbourhoodCleaningRule :=
  {| ratio := ratio self;
     return_indices := return_indices self;
     random_state := v;
     size_ngh := size_ngh self;
     n_neighbors := n_neighbors self;
     kind_sel := kind_sel self;
     threshold_cleaning := threshold_cleaning self;
     n_jobs := n_jobs self;
     X_shape_ := X_shape_ self;
     ratio_ := ratio_ self;
     nn_ := nn_ self |}.

Definition set_return_indices (v : bool) (self : NeighbourhoodCleaningRule)
  : NeighbourhoodCleaningRule :=
  {| ratio := ratio self;
     return_indices := v;
     random_state := random_state self;
     size_ngh := size_ngh self;
     n_neighbors := n_neighbors self;
     kind_sel := kind_sel self;
     threshold_cleaning := threshold_cleaning self;
     n_jobs := n_jobs self;
     X_shape_ := X_shape_ self;
     ratio_ := ratio_ self;
     nn_ := nn_ self |}.

Definition set_threshold_cleaning (v : Q) (self : NeighbourhoodCleaningRule)
  : NeighbourhoodCleaningRule :=
  {| ratio := ratio self;
     return_indices := return_indices self;
     random_state := random_state self;
     size_ngh := size_ngh self;
     n_neighbors := n_neighbors self;
     kind_sel := kind_sel self;
     threshold_cleaning := v;
     n_jobs := n_jobs self;
     X_shape_ := X_shape_ self;
     ratio_ := ratio_ self;
     nn_ := nn_ self |}.

(** [__init__] (lines 92-108): the arguments are stored as they come, nothing
    is checked and no fitted attribute exists yet. *)
Definition __init__ (ratio0 : ratio_spec) (return_indices0 : bool)
    (random_state0 : random_state_spec) (size_ngh0 : option nat)
    (n_neighbors0 : nat) (kind_sel0 : string) (threshold_cleaning0 : Q)
    (n_jobs0 : Z) : NeighbourhoodCleaningRule :=
  {| ratio := ratio0;
     return_indices := return_indices0;
     random_state := random_state0;
     size_ngh := size_ngh0;
     n_neighbors := n_neighbors0;
     kind_sel := kind_sel0;
     threshold_cleaning := threshold_cleaning0;
     n_jobs := n_jobs0;
     X_shape_ := None;
     ratio_ := None;
     nn_ := None |}.

(** The constructor parameters, as [get_params()] lists them. *)
Definition get_params (self : NeighbourhoodCleaningRule) :=
  (ratio self, return_indices self, random_state self, size_ngh self,
   n_neighbors self, kind_sel self, threshold_cleaning self, n_jobs self).

(** ** The Edited Nearest Neighbours collaborator: its constructor arguments *)

Record EditedNearestNeighbours : Type := mkEditedNearestNeighbours {
  enn_ratio : ratio_spec;
  enn_return_indices : bool;
  enn_random_state : random_state_spec;
  enn_size_ngh : option nat;
  enn_n_neighbors : nat;
  enn_kind_sel : string;
  enn_n_jobs : Z
}.

(** ** Collaborators *)

(** [super().fit(X, y)]: the inherited fit, which works on the object. *)
Variable base_fit : list Row -> list Z -> Py NeighbourhoodCleaningRule unit.

(** [EditedNearestNeighbours(...).fit_sample(X, y)] with [return_indices=True]. *)
Variable enn_fit_sample :
  EditedNearestNeighbours -> list Row -> list Z ->
  result (list Row * list Z * list nat).

(** [nn.kneighbors(q, return_distance=False)] for one query row [q]:
    the indices of the nearest fitted rows, nearest first. *)
Variable kneighbors : NearestNeighbors -> Row -> result (list nat).

(** ** [fit] (lines 110-140) *)

(** The object once lines 128-130 have assigned [nn_]. *)
Definition with_nn_ (s1 : NeighbourhoodCleaningRule) : NeighbourhoodCleaningRule :=
  set_nn_ (nn_set_n_jobs (n_jobs s1) (check_neighbors_object (n_neighbors s1) 1)) s1.

Definition fit (X : list Row) (y : list Z) : Py NeighbourhoodCleaningRule unit :=
  base_fit X y ;;
  do self <- get;
  put (set_nn_ (check_neighbors_object (n_neighbors self) 1) self) ;;
  do self <- get;
  do nn <- attr (nn_ self);
  put (set_nn_ (nn_set_n_jobs (n_jobs self) nn) self) ;;
  do self <- get;
  if negb (bool_decide (kind_sel self ∈ SEL_KIND)) then
    raise NotImplementedError
  else if Qlt_bool 1 (threshold_cleaning self)
          || Qlt_bool (threshold_cleaning self) 0 then
    raise ValueError
  else
    ret tt.

(** ** [_sample] (lines 142-214) *)

(** The arguments of the Edited Nearest Neighbours call (lines 166-171). *)
Definition enn_of (self : NeighbourhoodCleaningRule) : EditedNearestNeighbours :=
  {| enn_ratio := ratio self;
     enn_return_indices := true;
     enn_random_state := random_state self;
     enn_size_ngh := size_ngh self;
     enn_n_neighbors := n_neighbors self;
     enn_kind_sel := "mode";
     enn_n_jobs := n_jobs self |}.

(** Lines 166-175: the indices the Edited Nearest Neighbours pass drops. *)
Definition stage_a1 (X : list Row) (y : list Z)
  : Py NeighbourhoodCleaningRule (list nat) :=
  do self <- get;
  do ' (_, _, index_not_a1) <- lift (enn_fit_sample (enn_of self) X y);
  do index_a1 <- lift (assign_false (np_ones (length y)) index_not_a1);
  ret (flatnonzero index_a1).

(** Lines 181-184. *)
Definition classes_under_sample (ratio_ : gmap Z nat) (threshold : Q)
    (n_rows : nat) (target_stats : list (Z * nat)) : list Z :=
  map fst
    (List.filter (fun cn : Z * nat =>
                    bool_decide (is_Some (ratio_ !! cn.1))
                    && Qlt_bool (inject_Z (Z.of_nat n_rows) * threshold)%Q
                                (inject_Z (Z.of_nat cn.2)))
                 target_stats).

(** Lines 191-196: one boolean per minority sample. *)
Definition nnhood_bool_of (kind : string) (class_minority : Z)
    (nnhood_label : list (list Z)) (y_class : list Z) : result (list bool) :=
  if (kind =? "mode")%string then
    Ok (zip_with Z.eqb (map mode_row nnhood_label) y_class)
  else if (kind =? "all")%string then
    Ok (map (forallb (fun l => negb (l =? 0)%Z)) nnhood_label)
  else
    Raise UnboundLocalError.

(** Lines 198-200. *)
Definition index_a2_of (y : list Z) (classes : list Z)
    (nnhood_idx : list (list nat)) (nnhood_bool : list bool) : list nat :=
  np_unique
    (List.filter (fun index => match y !! index with
                               | Some l => bool_decide (l ∈ classes)
                               | None => false
                               end)
                 (concat (select nnhood_idx (map negb nnhood_bool)))).

(** Lines 177-200: the neighbours of inconsistent minority samples. *)
Definition stage_a2 (X : list Row) (y : list Z)
  : Py NeighbourhoodCleaningRule (list nat) :=
  let target_stats := Counter y in
  do class_minority <- lift (min_key target_stats);
  do self <- get;
  do ratio_ <- attr (ratio_ self);
  let classes :=
    classes_under_sample ratio_ (threshold_cleaning self) (length X) target_stats in
  do nn <- attr (nn_ self);
  put (set_nn_ (nn_fit X nn) self) ;;
  let is_minority := map (fun l => (l =? class_minority)%Z) y in
  do X_class <- lift (np_mask X is_minority);
  do y_class <- lift (np_mask y is_minority);
  do self <- get;
  do nn <- attr (nn_ self);
  do neighbours <- lift (result_mapM (kneighbors nn) X_class);
  let nnhood_idx := map (drop 1) neighbours in
  do nnhood_label <- lift (result_mapM (np_take y) nnhood_idx);
  do nnhood_bool <-
    lift (nnhood_bool_of (kind_sel self) class_minority nnhood_label y_class);
  ret (index_a2_of y classes nnhood_idx nnhood_bool).

Record resampled : Type := mkResampled {
  X_resampled : list Row;
  y_resampled : list Z;
  idx_under : option (list nat)
}.

(** The result of the pass without the index array. *)
Definition without_index (r : result resampled) : result resampled :=
  match r with
  | Ok out => Ok (mkResampled (X_resampled out) (y_resampled out) None)
  | Raise e => Raise e
  end.

(** Lines 202-205: the indices left once both groups are masked out. *)
Definition index_target_class_of (y : list Z) (index_a1 index_a2 : list nat)
  : result (list nat) :=
  let union_a1_a2 := np_union1d index_a1 index_a2 in
  rbind (assign_false (np_ones (length y)) union_a1_a2)
        (fun selected_samples => Ok (flatnonzero selected_samples)).

Definition _sample (X : list Row) (y : list Z)
  : Py NeighbourhoodCleaningRule resampled :=
  do index_a1 <- stage_a1 X y;
  do index_a2 <- stage_a2 X y;
  do index_target_class <- lift (index_target_class_of y index_a1 index_a2);
  do X_res <- lift (np_take X index_target_class);
  do y_res <- lift (np_take y index_target_class);
  do self <- get;
  if return_indices self then
    ret (mkResampled X_res y_res (Some index_target_class))
  else
    ret (mkResampled X_res y_res None).

(** Modelled from the spec: [fit_sample] is inherited and not in the file;
    it is the fit followed by the cleaning call on the same data. *)
Definition fit_sample (X : list Row) (y : list Z)
  : Py NeighbourhoodCleaningRule resampled :=
  fit X y ;; _sample X y.

End NeighbourhoodCleaningRule.

Arguments NearestNeighbors : clear implicits.
Arguments NeighbourhoodCleaningRule : clear implicits.
Arguments resampled : clear implicits.

(** ** Test doubles for the collaborators

    A brute-force neighbour search over integer points, an Edited Nearest
    Neighbours stub that keeps a given index set, and an inherited fit that
    records the data shape and a resolved ratio.  They instantiate the
    section variables in the examples. *)

Module Doubles.

Definition point := list Z.

Definition sq_dist (a b : point) : Z :=
  foldr Z.add 0%Z (zip_with (fun u v => (u - v) * (u - v))%Z a b).

Definition closer (p q : Z * nat) : bool :=
  (p.1 <? q.1)%Z || ((p.1 =? q.1)%Z && (p.2 <? q.2)).

Fixpoint insert_by (p : Z * nat) (l : list (Z * nat)) : list (Z * nat) :=
  match l with
  | [] => [p]
  | q :: l' => if closer p q then p :: l else q :: insert_by p l'
  end.

(** Nearest first by squared Euclidean distance, ties by row index. *)
Definition brute_kneighbors (nn : NearestNeighbors point) (q : point)
  : result (list nat) :=
  match nn_fit_X nn with
  | None => Raise (OtherError "NotFittedError")
  | Some fitted =>
      if length fitted <? nn_n_neighbors nn then Raise ValueError
      else
        Ok (take (nn_n_neighbors nn)
              (map snd (foldr insert_by []
                          (imap (fun i p => (sq_dist p q, i)) fitted))))
  end.

(** Modelled from the spec: the Edited Nearest Neighbours sampler is not in
    the file and the spec gives its interface only, a call on [X], [y] and
    its configuration that returns the cleaned [X], the cleaned [y] and the
    retained-index array.  This stand-in keeps exactly the rows listed in
    [kept], whatever its configuration. *)
Definition enn_stub (kept : list nat) (_ : EditedNearestNeighbours)
    (X : list point) (y : list Z) : result (list point * list Z * list nat) :=
  rbind (np_take X kept) (fun Xk =>
  rbind (np_take y kept) (fun yk => Ok (Xk, yk, kept))).

(** Modelled from the spec: the inherited [fit] is not in the file.  It
    checks that [X] and [y] have as many rows, records the data shape and
    stores the resolved resampling ratio; the resolver is outside too, so
    the resolved ratio is an argument. *)
Definition base_fit_stub (resolved : gmap Z nat) (X : list point) (y : list Z)
  : Py (NeighbourhoodCleaningRule point) unit :=
  fun self =>
    if length X =? length y then
      ({| ratio := ratio self;
          return_indices := return_indices self;
          random_state := random_state self;
          size_ngh := size_ngh self;
          n_neighbors := n_neighbors self;
          kind_sel := kind_sel self;
          threshold_cleaning := threshold_cleaning self;
          n_jobs := n_jobs self;
          X_shape_ := Some (length X, length (default [] (head X)));
          ratio_ := Some resolved;
          nn_ := nn_ self |}, Ok tt)
    else (self, Raise ValueError).

(** The default configuration, not yet fitted. *)
Definition ncr0 : NeighbourhoodCleaningRule point :=
  {| ratio := RatioStr "auto"; return_indices := false; random_state := RandomNone;
     size_ngh := None; n_neighbors := 3; kind_sel := "all";
     threshold_cleaning := (1#2)%Q; n_jobs := 1;
     X_shape_ := None; ratio_ := None; nn_ := None |}.

(** One minority sample (label 1) next to six samples of class 2. *)
Definition X0 : list point := [[0]; [10]; [11]; [12]; [13]; [14]; [15]]%Z.
Definition y0 : list Z := [1; 2; 2; 2; 2; 2; 2]%Z.
Definition r0 : gmap Z nat := {[ 2%Z := 1 ]}.

(** The default configuration fitted on [X0], [y0]. *)
Definition fitted0 : NeighbourhoodCleaningRule point :=
  (fit (base_fit_stub r0) X0 y0 ncr0).1.

(** Two minority samples (label 0) next to five samples of class 2; the
    Edited Nearest Neighbours stub drops row 5. *)
Definition X1 : list point := [[0]; [1]; [2]; [10]; [11]; [12]; [13]]%Z.
Definition y1 : list Z := [0; 0; 2; 2; 2; 2; 2]%Z.
Definition enn1 := enn_stub [0; 1; 2; 3; 4; 6].

Definition fitted1 : NeighbourhoodCleaningRule point :=
  (fit (base_fit_stub r0) X1 y1 (set_return_indices true ncr0)).1.

Definition after1 : NeighbourhoodCleaningRule point :=
  set_nn_ (mkNearestNeighbors 4 1 (Some X1)) fitted1.

Definition cleaned1 : resampled point :=
  {| X_resampled := [[0]; [1]; [11]; [13]]%Z;
     y_resampled := [0; 0; 2; 2]%Z;
     idx_under := Some [0; 1; 4; 6] |}.

(** Configurations that [fit] rejects. *)
Definition with_kind_sel_threshold (kind : string) (threshold : Q)
    (self : NeighbourhoodCleaningRule point) : NeighbourhoodCleaningRule point :=
  {| ratio := ratio self;
     return_indices := return_indices self;
     random_state := random_state self;
     size_ngh := size_ngh self;
     n_neighbors := n_neighbors self;
     kind_sel := kind;
     threshold_cleaning := threshold;
     n_jobs := n_jobs self;
     X_shape_ := X_shape_ self;
     ratio_ := ratio_ self;
     nn_ := nn_ self |}.

Definition ncr_bad_kind := with_kind_sel_threshold "median" (1#2)%Q ncr0.
Definition ncr_bad_threshold := with_kind_sel_threshold "all" (3#2)%Q ncr0.

(** Fitted objects for the further examples: [fitted0] once cleaned, and
    [fitted1] with another selection kind, threshold or provider. *)
Definition after0 : NeighbourhoodCleaningRule point :=
  set_nn_ (mkNearestNeighbors 4 1 (Some X0)) fitted0.
Definition fitted1_mode := with_kind_sel_threshold "mode" (1#2)%Q fitted1.
Definition fitted1_median := with_kind_sel_threshold "median" (1#2)%Q fitted1.
Definition fitted1_threshold_one := with_kind_sel_threshold "all" 1%Q fitted1.
Definition fitted1_starved : NeighbourhoodCleaningRule point :=
  set_nn_ (mkNearestNeighbors 10 1 None) fitted1.
End Doubles.

(** * Properties *)

(** ** Inversion of monadic steps *)

Lemma bind_Ok_inv {S A B} (m : Py S A) (k : A -> Py S B) (s s' : S) (b : B) :
  bind m k s = (s', Ok b) ->
  exists s1 a, m s = (s1, Ok a) /\ k a s1 = (s', Ok b).
Proof.
  unfold bind. destruct (m s) as [s1 [a|e]]; intros H.
  - exists s1, a. auto.
  - discriminate.
Qed.

Lemma bind_Ok {S A B} (m : Py S A) (k : A -> Py S B) (s s1 : S) (a : A) :
  m s = (s1, Ok a) -> bind m k s = k a s1.
Proof. unfold bind. intros ->. reflexivity. Qed.

Lemma bind_Raise {S A B} (m : Py S A) (k : A -> Py S B) (s s1 : S) e :
  m s = (s1, Raise e) -> bind m k s = (s1, Raise e).
Proof. unfold bind. intros ->. reflexivity. Qed.

Lemma lift_Ok_inv {S A} (r : result A) (s s' : S) (a : A) :
  lift r s = (s', Ok a) -> s' = s /\ r = Ok a.
Proof. unfold lift. intros H. inversion H. auto. Qed.

Lemma attr_Ok_inv {S A} (o : option A) (s s' : S) (a : A) :
  attr o s = (s', Ok a) -> s' = s /\ o = Some a.
Proof. destruct o; cbv; intros H; inversion H; auto. Qed.

Lemma get_Ok_inv {S} (s s' x : S) : get s = (s', Ok x) -> s' = s /\ x = s.
Proof. cbv. intros H. inversion H. auto. Qed.

Lemma put_Ok_inv {S} (v s s' : S) u : put v s = (s', Ok u) -> s' = v.
Proof. cbv. intros H. inversion H. auto. Qed.

Lemma ret_Ok_inv {S A} (a b : A) (s s' : S) : ret a s = (s', Ok b) -> s' = s /\ b = a.
Proof. cbv. intros H. inversion H. auto. Qed.

(** Peels the successful run in hypothesis [H] one step at a time. *)
Ltac py_step H :=
  lazymatch type of H with
  | bind _ _ _ = (_, Ok _) =>
      let s1 := fresh "s" in
      let a := fresh "a" in
      let H1 := fresh "Hstep" in
      apply bind_Ok_inv in H; destruct H as (s1 & a & H1 & H);
      lazymatch type of H1 with
      | get _ = _ => apply get_Ok_inv in H1; destruct H1 as [-> ->]
      | put _ _ = _ => apply put_Ok_inv in H1; subst s1
      | lift _ _ = _ =>
          apply lift_Ok_inv in H1; let E := fresh "E" in destruct H1 as [-> E]
      | attr _ _ = _ =>
          apply attr_Ok_inv in H1; let E := fresh "E" in destruct H1 as [-> E]
      | _ => idtac
      end
  end.

Lemma rbind_Ok_inv {A B} (r : result A) (k : A -> result B) (b : B) :
  rbind r k = Ok b -> exists a, r = Ok a /\ k a = Ok b.
Proof. destruct r; simpl; intros H; [eauto | discriminate]. Qed.

Lemma result_mapM_Forall2 {A B} (f : A -> result B) (l : list A) (r : list B) :
  result_mapM f l = Ok r <-> Forall2 (fun a b => f a = Ok b) l r.
Proof.
  revert r. induction l as [|a l IH]; intros r; simpl.
  - split; intros H.
    + inversion H. constructor.
    + inversion H. reflexivity.
  - split; intros H.
    + apply rbind_Ok_inv in H as (b & Hb & H).
      apply rbind_Ok_inv in H as (bs & Hbs & H).
      inversion H; subst. constructor; [assumption | by apply IH].
    + inversion H as [|? b ? bs Hb Hbs]; subst.
      rewrite Hb. simpl. apply IH in Hbs. rewrite Hbs. reflexivity.
Qed.

(** ** numpy arrays *)

Lemma np_ones_lookup (n k : nat) : np_ones n !! k = Some true <-> k < n.
Proof.
  unfold np_ones. rewrite lookup_replicate. intuition.
Qed.

Lemma foldr_clear_lookup (mask : list bool) (idx : list nat) (k : nat) :
  foldr (fun i m => <[i:=false]> m) mask idx !! k = Some true
  <-> mask !! k = Some true /\ k ∉ idx.
Proof.
  induction idx as [|i idx IH]; simpl.
  - rewrite elem_of_nil. intuition.
  - rewrite not_elem_of_cons. destruct (decide (k = i)) as [->|Hne].
    + split; [|intuition].
      intros H. exfalso.
      set (m := foldr (fun i m => <[i:=false]> m) mask idx) in *.
      destruct (decide (i < length m)) as [Hlt|Hge].
      * rewrite list_lookup_insert_eq in H by assumption. discriminate.
      * rewrite list_insert_ge in H by lia.
        apply lookup_lt_Some in H. lia.
    + rewrite list_lookup_insert_ne by congruence. rewrite IH. intuition.
Qed.

Lemma foldr_clear_length (mask : list bool) (idx : list nat) :
  length (foldr (fun i m => <[i:=false]> m) mask idx) = length mask.
Proof.
  induction idx as [|i idx IH]; simpl; [reflexivity|].
  by rewrite length_insert.
Qed.

Lemma in_bounds_spec (n : nat) (idx : list nat) :
  in_bounds n idx = true <-> forall i, i ∈ idx -> i < n.
Proof.
  unfold in_bounds. rewrite forallb_forall. split; intros H i Hi.
  - apply list_elem_of_In in Hi. apply H in Hi. by apply Nat.ltb_lt.
  - apply Nat.ltb_lt, H. by apply list_elem_of_In.
Qed.

Lemma assign_false_Ok (mask : list bool) (idx : list nat) (m' : list bool) :
  assign_false mask idx = Ok m' ->
  length m' = length mask
  /\ (forall i, i ∈ idx -> i < length mask)
  /\ forall k, m' !! k = Some true <-> mask !! k = Some true /\ k ∉ idx.
Proof.
  unfold assign_false. destruct (in_bounds _ _) eqn:Hb; [|discriminate].
  intros H. inversion H; subst. split; [apply foldr_clear_length|].
  split; [by apply in_bounds_spec|]. apply foldr_clear_lookup.
Qed.

Lemma flatnonzero_from_spec (mask : list bool) (i j : nat) :
  j ∈ flatnonzero_from i mask <-> exists k, j = i + k /\ mask !! k = Some true.
Proof.
  revert i. induction mask as [|b mask IH]; intros i; simpl.
  - rewrite elem_of_nil. split; [tauto|]. intros (k & _ & H). discriminate.
  - assert (Hrest : j ∈ flatnonzero_from (S i) mask
                    <-> exists k, j = i + S k /\ mask !! k = Some true).
    { rewrite IH. split; intros (k & -> & H); exists k; split; auto; lia. }
    destruct b.
    + rewrite elem_of_cons, Hrest. split.
      * intros [-> | (k & -> & H)].
        -- exists 0. split; [lia | reflexivity].
        -- exists (S k). auto.
      * intros ([|k] & -> & H); [left; lia | right; eauto].
    + rewrite Hrest. split.
      * intros (k & -> & H). exists (S k). auto.
      * intros ([|k] & -> & H); [discriminate | eauto].
Qed.

Lemma flatnonzero_spec (mask : list bool) (j : nat) :
  j ∈ flatnonzero mask <-> mask !! j = Some true.
Proof.
  unfold flatnonzero. rewrite flatnonzero_from_spec. split.
  - intros (k & -> & H). exact H.
  - intros H. exists j. auto.
Qed.

Lemma flatnonzero_from_sorted (mask : list bool) (i : nat) :
  StronglySorted lt (flatnonzero_from i mask).
Proof.
  revert i. induction mask as [|b mask IH]; intros i; simpl; [constructor|].
  destruct b; [|apply IH].
  constructor; [apply IH|].
  apply Forall_forall. intros j Hj.
  apply flatnonzero_from_spec in Hj as (k & -> & _). lia.
Qed.

Lemma flatnonzero_sorted (mask : list bool) : StronglySorted lt (flatnonzero mask).
Proof. apply flatnonzero_from_sorted. Qed.

Lemma np_take_Forall2 {A} (a : list A) (idx : list nat) (r : list A) :
  np_take a idx = Ok r <-> Forall2 (fun i v => a !! i = Some v) idx r.
Proof.
  unfold np_take. rewrite result_mapM_Forall2.
  split; intros H; eapply Forall2_impl; try exact H; simpl; intros i v.
  - destruct (a !! i); intros E; inversion E; reflexivity.
  - intros ->. reflexivity.
Qed.

Lemma np_take_lookup {A} (a : list A) (idx : list nat) (r : list A) :
  np_take a idx = Ok r ->
  length r = length idx
  /\ forall k i, idx !! k = Some i -> i < length a /\ r !! k = a !! i.
Proof.
  rewrite np_take_Forall2. intros H. split.
  - symmetry. eapply Forall2_length, H.
  - intros k i Hk.
    destruct (Forall2_lookup_l _ _ _ _ _ H Hk) as (v & Hv & Hai).
    split; [eapply lookup_lt_Some, Hai | congruence].
Qed.

Lemma insert_sorted_elem (x z : nat) (l : list nat) :
  z ∈ insert_sorted x l <-> z = x \/ z ∈ l.
Proof.
  induction l as [|h t IH]; simpl.
  - rewrite list_elem_of_singleton, elem_of_nil. tauto.
  - destruct (x <? h) eqn:E1; [by rewrite elem_of_cons|].
    destruct (x =? h) eqn:E2.
    + apply Nat.eqb_eq in E2 as ->. rewrite elem_of_cons. tauto.
    + rewrite !elem_of_cons, IH. tauto.
Qed.

Lemma insert_sorted_sorted (x : nat) (l : list nat) :
  StronglySorted lt l -> StronglySorted lt (insert_sorted x l).
Proof.
  induction l as [|h t IH]; simpl; intros Hs.
  - repeat constructor.
  - inversion Hs as [|? ? Ht Hall]; subst.
    destruct (x <? h) eqn:E1.
    + apply Nat.ltb_lt in E1. constructor; [assumption|].
      constructor; [assumption|].
      eapply Forall_impl; [exact Hall|]. simpl. intros; lia.
    + destruct (x =? h) eqn:E2; [assumption|].
      apply Nat.ltb_ge in E1. apply Nat.eqb_neq in E2.
      constructor; [by apply IH|].
      apply Forall_forall. intros z Hz.
      apply insert_sorted_elem in Hz as [->|Hz]; [lia|].
      rewrite Forall_forall in Hall. by apply Hall.
Qed.

Lemma np_unique_elem (z : nat) (l : list nat) : z ∈ np_unique l <-> z ∈ l.
Proof.
  unfold np_unique. induction l as [|x l IH]; simpl; [reflexivity|].
  rewrite insert_sorted_elem, elem_of_cons, IH. reflexivity.
Qed.

Lemma np_unique_sorted (l : list nat) : StronglySorted lt (np_unique l).
Proof.
  unfold np_unique. induction l as [|x l IH]; simpl; [constructor|].
  by apply insert_sorted_sorted.
Qed.

Lemma sorted_lt_NoDup (l : list nat) : StronglySorted lt l -> NoDup l.
Proof.
  induction 1 as [|x l Hs IH Hall]; constructor; [|assumption].
  intros Hx. rewrite Forall_forall in Hall. specialize (Hall _ Hx). lia.
Qed.

Lemma np_union1d_elem (z : nat) (a b : list nat) :
  z ∈ np_union1d a b <-> z ∈ a \/ z ∈ b.
Proof. unfold np_union1d. by rewrite np_unique_elem, elem_of_app. Qed.

Lemma select_elem {A} (a : list A) (mask : list bool) (x : A) :
  x ∈ select a mask <-> exists k, a !! k = Some x /\ mask !! k = Some true.
Proof.
  revert mask. induction a as [|v a IH]; intros mask; simpl.
  - rewrite elem_of_nil. split; [tauto|]. intros (k & H & _). discriminate.
  - destruct mask as [|b mask].
    + rewrite elem_of_nil. split; [tauto|]. intros (k & _ & H). discriminate.
    + assert (Hrest : x ∈ select a mask
                      <-> exists k, (v :: a) !! S k = Some x
                                    /\ (b :: mask) !! S k = Some true)
        by (rewrite IH; reflexivity).
      destruct b.
      * rewrite elem_of_cons, Hrest. split.
        -- intros [-> | (k & H)]; [exists 0; auto | eauto].
        -- intros ([|k] & Hk & Hm); [left; by inversion Hk | right; eauto].
      * rewrite Hrest. split.
        -- intros (k & H). eauto.
        -- intros ([|k] & Hk & Hm); [discriminate | eauto].
Qed.

Lemma select_length_le {A} (a : list A) (mask : list bool) :
  length (select a mask) <= length a.
Proof.
  revert mask. induction a as [|v a IH]; intros [|[] mask]; simpl; try lia;
    specialize (IH mask); lia.
Qed.

(** ** Counters *)

Lemma occ_cons (c x : Z) (l : list Z) :
  occ c (x :: l) = if decide (x = c) then S (occ c l) else occ c l.
Proof. unfold occ. rewrite filter_cons. by destruct (decide (x = c)). Qed.

Lemma occ_pos (c : Z) (l : list Z) : 0 < occ c l <-> c ∈ l.
Proof.
  induction l as [|x l IH].
  - unfold occ. simpl. rewrite elem_of_nil. lia.
  - rewrite occ_cons, elem_of_cons. destruct (decide (x = c)) as [->|Hne].
    + split; [auto | lia].
    + rewrite IH. split; [auto|]. intros [->|H]; [congruence | assumption].
Qed.

Lemma counter_get_incr (k c : Z) (cnt : list (Z * nat)) :
  counter_get k (counter_incr c cnt)
  = if decide (c = k) then S (counter_get k cnt) else counter_get k cnt.
Proof.
  induction cnt as [|[k' n] cnt IH]; simpl.
  - destruct (Z.eqb_spec c k), (decide (c = k)); congruence || reflexivity.
  - destruct (Z.eqb_spec k' c) as [->|Hne]; simpl.
    + destruct (Z.eqb_spec c k), (decide (c = k)); congruence || reflexivity.
    + destruct (Z.eqb_spec k' k) as [->|Hne'].
      * destruct (decide (c = k)); congruence || reflexivity.
      * apply IH.
Qed.

Lemma counter_get_fold (k : Z) (y : list Z) (acc : list (Z * nat)) :
  counter_get k (fold_left (fun cnt c => counter_incr c cnt) y acc)
  = counter_get k acc + occ k y.
Proof.
  revert acc. induction y as [|x y IH]; intros acc; simpl.
  - unfold occ. simpl. lia.
  - rewrite IH, counter_get_incr, occ_cons.
    destruct (decide (x = k)); lia.
Qed.

Lemma counter_get_Counter (k : Z) (y : list Z) : counter_get k (Counter y) = occ k y.
Proof. unfold Counter. by rewrite counter_get_fold. Qed.

Lemma counter_incr_keys (c k : Z) (cnt : list (Z * nat)) :
  k ∈ map fst (counter_incr c cnt) <-> k = c \/ k ∈ map fst cnt.
Proof.
  induction cnt as [|[k' n] cnt IH]; simpl.
  - rewrite list_elem_of_singleton, elem_of_nil. tauto.
  - destruct (Z.eqb_spec k' c) as [->|Hne]; simpl; rewrite !elem_of_cons.
    + tauto.
    + rewrite IH. tauto.
Qed.

Lemma counter_incr_wf (c : Z) (cnt : list (Z * nat)) :
  counter_wf cnt -> counter_wf (counter_incr c cnt).
Proof.
  unfold counter_wf. induction cnt as [|[k n] cnt IH]; simpl; intros [Hnd Hpos].
  - split; [apply NoDup_singleton | repeat constructor].
  - apply NoDup_cons in Hnd as [Hk Hnd]. apply Forall_cons in Hpos as [Hn Hpos].
    destruct (Z.eqb_spec k c) as [->|Hne]; simpl.
    + split; [by apply NoDup_cons | constructor; [simpl; lia | assumption]].
    + destruct (IH (conj Hnd Hpos)) as [IH1 IH2].
      split; [|by constructor].
      apply NoDup_cons. split; [|assumption].
      rewrite counter_incr_keys. intros [->|H]; [congruence | contradiction].
Qed.

Lemma Counter_wf (y : list Z) : counter_wf (Counter y).
Proof.
  unfold Counter.
  assert (H : forall acc, counter_wf acc ->
            counter_wf (fold_left (fun cnt c => counter_incr c cnt) y acc)).
  { induction y as [|x y IH]; intros acc Hacc; simpl; [assumption|].
    apply IH. by apply counter_incr_wf. }
  apply H. split; [apply NoDup_nil_2 | constructor].
Qed.

Lemma counter_wf_elem (k : Z) (n : nat) (cnt : list (Z * nat)) :
  counter_wf cnt -> ((k, n) ∈ cnt <-> 0 < n /\ counter_get k cnt = n).
Proof.
  unfold counter_wf. induction cnt as [|[k' n'] cnt IH]; simpl; intros [Hnd Hpos].
  - rewrite elem_of_nil. lia.
  - apply NoDup_cons in Hnd as [Hk Hnd]. apply Forall_cons in Hpos as [Hn Hpos].
    simpl in Hn. rewrite elem_of_cons, (IH (conj Hnd Hpos)).
    destruct (Z.eqb_spec k' k) as [->|Hne].
    + split.
      * intros [E | [Hn0 Hg]]; [inversion E; subst; auto|].
        exfalso. apply Hk.
        assert (Hin : (k, n) ∈ cnt) by (apply (IH (conj Hnd Hpos)); auto).
        apply list_elem_of_In. apply in_map_iff. exists (k, n).
        split; [reflexivity | by apply list_elem_of_In].
      * intros [_ ->]. by left.
    + split.
      * intros [E | H]; [inversion E; congruence | assumption].
      * intros H. by right.
Qed.

Lemma Counter_elem (k : Z) (n : nat) (y : list Z) :
  (k, n) ∈ Counter y <-> k ∈ y /\ occ k y = n.
Proof.
  rewrite (counter_wf_elem _ _ _ (Counter_wf y)), counter_get_Counter.
  rewrite <- occ_pos. split; intros [H1 H2]; split; auto; lia.
Qed.

Lemma Qlt_bool_iff (a b : Q) : Qlt_bool a b = true <-> (a < b)%Q.
Proof.
  unfold Qlt_bool. rewrite negb_true_iff, <- not_true_iff_false, Qle_bool_iff.
  split; [apply Qnot_le_lt | apply Qlt_not_le].
Qed.

(** ** The cleaning pass returns on valid input *)

Lemma result_mapM_Ok_ex {A B} (f : A -> result B) (P : B -> Prop) (l : list A) :
  (forall a, a ∈ l -> exists b, f a = Ok b /\ P b) ->
  exists bs, result_mapM f l = Ok bs /\ Forall P bs.
Proof.
  induction l as [|a l IH]; intros H; simpl.
  - exists []. split; [reflexivity | constructor].
  - destruct (H a) as (b & Hb & HP); [by left|].
    destruct IH as (bs & Hbs & HPs); [intros a' Ha'; apply H; by right|].
    exists (b :: bs). rewrite Hb, Hbs. split; [reflexivity | by constructor].
Qed.

Lemma np_take_Ok_ex {A} (a : list A) (idx : list nat) :
  (forall i, i ∈ idx -> i < length a) -> exists r, np_take a idx = Ok r.
Proof.
  intros H. unfold np_take.
  destruct (result_mapM_Ok_ex
              (fun i => match a !! i with Some v => Ok v | None => Raise IndexError end)
              (fun _ => True) idx) as (r & Hr & _); [|eauto].
  intros i Hi. destruct (lookup_lt_is_Some_2 a i (H i Hi)) as [v Hv].
  exists v. by rewrite Hv.
Qed.

Lemma select_subset {A} (a : list A) (mask : list bool) (x : A) :
  x ∈ select a mask -> x ∈ a.
Proof.
  intros H. apply select_elem in H as (k & Hk & _).
  eapply list_elem_of_lookup_2, Hk.
Qed.

Lemma min_key_Ok y : y <> [] -> exists c, min_key (Counter y) = Ok c.
Proof.
  intros Hy. destruct (Counter y) as [|kn cnt] eqn:E; simpl; [|eauto].
  exfalso. destruct y as [|c y]; [congruence|].
  assert (Hin : (c, occ c (c :: y)) ∈ Counter (c :: y))
    by (apply Counter_elem; split; [by left | reflexivity]).
  rewrite E in Hin. by apply elem_of_nil in Hin.
Qed.

Lemma assign_false_Ok_ex (mask : list bool) (idx : list nat) :
  (forall i, i ∈ idx -> i < length mask) -> exists m', assign_false mask idx = Ok m'.
Proof.
  intros H. unfold assign_false.
  apply in_bounds_spec in H. rewrite H. eauto.
Qed.

(** ** The cleaning pass, step by step *)

Section Properties.

Context {Row : Type}.
Variable base_fit : list Row -> list Z -> Py (NeighbourhoodCleaningRule Row) unit.
Variable enn_fit_sample :
  EditedNearestNeighbours -> list Row -> list Z ->
  result (list Row * list Z * list nat).
Variable kneighbors : NearestNeighbors Row -> Row -> result (list nat).

Implicit Types (self : NeighbourhoodCleaningRule Row) (X : list Row) (y : list Z).

Local Set Default Proof Using "Type".

Lemma stage_a1_Ok_inv X y self s' a1 :
  stage_a1 enn_fit_sample X y self = (s', Ok a1) ->
  s' = self
  /\ exists X_enn y_enn index_not_a1 mask,
      enn_fit_sample (enn_of self) X y = Ok (X_enn, y_enn, index_not_a1)
      /\ assign_false (np_ones (length y)) index_not_a1 = Ok mask
      /\ a1 = flatnonzero mask.
Proof.
  unfold stage_a1. intros H.
  py_step H. py_step H. destruct a as [[X_enn y_enn] index_not_a1].
  py_step H. apply ret_Ok_inv in H as [-> ->].
  split; [reflexivity|]. eauto 10.
Qed.

Lemma stage_a1_elem X y self s' a1 :
  stage_a1 enn_fit_sample X y self = (s', Ok a1) ->
  forall i, i ∈ a1 -> i < length y.
Proof.
  intros H i Hi.
  apply stage_a1_Ok_inv in H as (_ & ? & ? & kept & mask & _ & Hm & ->).
  apply assign_false_Ok in Hm as (_ & _ & Hm).
  apply flatnonzero_spec, Hm in Hi as [Hi _]. by apply np_ones_lookup.
Qed.

Lemma stage_a2_state X y self s' a2 :
  stage_a2 kneighbors X y self = (s', Ok a2) ->
  exists nn, nn_ self = Some nn /\ s' = set_nn_ (nn_fit X nn) self.
Proof.
  unfold stage_a2. intros H.
  repeat py_step H. apply ret_Ok_inv in H as [-> _]. eauto.
Qed.

Lemma index_target_class_of_spec y a1 a2 retained :
  index_target_class_of y a1 a2 = Ok retained ->
  StronglySorted lt retained
  /\ (forall i, i ∈ a1 \/ i ∈ a2 -> i < length y)
  /\ forall i, i ∈ retained <-> i < length y /\ (i ∉ a1) /\ i ∉ a2.
Proof.
  unfold index_target_class_of. intros H.
  apply rbind_Ok_inv in H as (mask & Hm & H). inversion H; subst. clear H.
  apply assign_false_Ok in Hm as (Hlen & Hb & Hm).
  split; [apply flatnonzero_sorted|]. split.
  - intros i Hi. unfold np_ones in Hb. rewrite length_replicate in Hb. apply Hb.
    by apply np_union1d_elem.
  - intros i. rewrite flatnonzero_spec, Hm, np_ones_lookup, np_union1d_elem.
    tauto.
Qed.

Lemma _sample_Ok_inv X y self s' out :
  _sample enn_fit_sample kneighbors X y self = (s', Ok out) ->
  exists a1 a2 retained,
    stage_a1 enn_fit_sample X y self = (self, Ok a1)
    /\ stage_a2 kneighbors X y self = (s', Ok a2)
    /\ index_target_class_of y a1 a2 = Ok retained
    /\ np_take X retained = Ok (X_resampled out)
    /\ np_take y retained = Ok (y_resampled out)
    /\ idx_under out = if return_indices self then Some retained else None.
Proof.
  unfold _sample. intros H.
  apply bind_Ok_inv in H as (s1 & a1 & Ha1 & H).
  pose proof (stage_a1_Ok_inv _ _ _ _ _ Ha1) as [-> _].
  apply bind_Ok_inv in H as (s2 & a2 & Ha2 & H).
  pose proof (stage_a2_state _ _ _ _ _ Ha2) as (nn & Hnn & Hs).
  apply bind_Ok_inv in H as (? & retained & Hm & H).
  apply lift_Ok_inv in Hm as [-> Hm].
  apply bind_Ok_inv in H as (? & X_res & HX & H).
  apply lift_Ok_inv in HX as [-> HX].
  apply bind_Ok_inv in H as (? & y_res & Hy & H).
  apply lift_Ok_inv in Hy as [-> Hy].
  apply bind_Ok_inv in H as (? & me & Hget & H).
  apply get_Ok_inv in Hget as [-> ->].
  assert (Hri : return_indices s2 = return_indices self) by (subst s2; reflexivity).
  rewrite Hri in H.
  exists a1, a2, retained.
  destruct (return_indices self); apply ret_Ok_inv in H as [-> ->];
    repeat split; assumption || reflexivity.
Qed.

(** ** What is kept *)

(** C1: when the cleaning pass returns, the indices it keeps lie in
    [range(n_samples)] and are exactly the indices that are in neither the
    A1 group (dropped by the Edited Nearest Neighbours pass) nor the A2 group;
    no index of either group is kept. *)
Theorem retained_is_complement_of_noise X y self s' out :
  _sample enn_fit_sample kneighbors X y self = (s', Ok out) ->
  exists index_a1 index_a2 index_target_class,
    stage_a1 enn_fit_sample X y self = (self, Ok index_a1)
    /\ stage_a2 kneighbors X y self = (s', Ok index_a2)
    /\ index_target_class_of y index_a1 index_a2 = Ok index_target_class
    /\ np_take X index_target_class = Ok (X_resampled out)
    /\ np_take y index_target_class = Ok (y_resampled out)
    /\ (forall i, i ∈ index_target_class -> i < length y)
    /\ (forall i, i ∈ index_a1 \/ i ∈ index_a2 -> i ∉ index_target_class)
    /\ forall i, i ∈ index_target_class
                 <-> i < length y /\ (i ∉ index_a1) /\ i ∉ index_a2.
Proof.
  intros H.
  apply _sample_Ok_inv in H as (a1 & a2 & retained & Ha1 & Ha2 & Hr & HX & Hy & _).
  exists a1, a2, retained.
  destruct (index_target_class_of_spec _ _ _ _ Hr) as (_ & _ & Hmem).
  split; [exact Ha1|]. split; [exact Ha2|]. split; [exact Hr|].
  split; [exact HX|]. split; [exact Hy|]. split; [|split].
  - intros i Hi. apply Hmem in Hi. apply Hi.
  - intros i Hin Hi. apply Hmem in Hi as (_ & Hn1 & Hn2).
    destruct Hin; contradiction.
  - exact Hmem.
Qed.

(** C4: the rows returned are the rows of [X] and [y] at the kept indices,
    in increasing index order, one output row per kept index; the call
    writes nothing but the sampler's own [nn_] attribute, which is refitted
    on [X]. *)
Theorem rows_follow_retained_indices X y self s' out :
  _sample enn_fit_sample kneighbors X y self = (s', Ok out) ->
  exists index_a1 index_a2 index_target_class,
    stage_a1 enn_fit_sample X y self = (self, Ok index_a1)
    /\ stage_a2 kneighbors X y self = (s', Ok index_a2)
    /\ index_target_class_of y index_a1 index_a2 = Ok index_target_class
    /\ StronglySorted lt index_target_class
    /\ length (X_resampled out) = length index_target_class
    /\ length (y_resampled out) = length index_target_class
    /\ (forall k i, index_target_class !! k = Some i ->
          i < length X /\ i < length y
          /\ X_resampled out !! k = X !! i
          /\ y_resampled out !! k = y !! i)
    /\ exists nn, nn_ self = Some nn /\ s' = set_nn_ (nn_fit X nn) self.
Proof.
  intros H.
  apply _sample_Ok_inv in H as (a1 & a2 & retained & Ha1 & Ha2 & Hr & HX & Hy & _).
  exists a1, a2, retained.
  destruct (index_target_class_of_spec _ _ _ _ Hr) as (Hsorted & _ & _).
  apply np_take_lookup in HX as [HlenX HX].
  apply np_take_lookup in Hy as [Hleny Hy].
  split; [exact Ha1|]. split; [exact Ha2|]. split; [exact Hr|].
  split; [exact Hsorted|]. split; [exact HlenX|]. split; [exact Hleny|].
  split.
  - intros k i Hk. destruct (HX k i Hk) as [HiX HkX].
    destruct (Hy k i Hk) as [Hiy Hky]. auto.
  - eapply stage_a2_state, Ha2.
Qed.

(** ** Attributes the cleaning pass does not read *)

Section Frame.

(** An update of the object that leaves alone what stage A2 reads. *)
Variable f : NeighbourhoodCleaningRule Row -> NeighbourhoodCleaningRule Row.
Hypothesis f_ratio_ : forall s, ratio_ (f s) = ratio_ s.
Hypothesis f_threshold_cleaning :
  forall s, threshold_cleaning (f s) = threshold_cleaning s.
Hypothesis f_nn_ : forall s, nn_ (f s) = nn_ s.
Hypothesis f_kind_sel : forall s, kind_sel (f s) = kind_sel s.
Hypothesis f_set_nn_ : forall v s, f (set_nn_ v s) = set_nn_ v (f s).

Lemma stage_a2_frame X y self :
  stage_a2 kneighbors X y (f self)
  = let '(s', r) := stage_a2 kneighbors X y self in (f s', r).
Proof using f_ratio_ f_threshold_cleaning f_nn_ f_kind_sel f_set_nn_.
  unfold stage_a2, bind, lift, get, put, attr, ret, raise.
  destruct (min_key (Counter y)) as [class_minority|e]; [|reflexivity].
  rewrite f_ratio_. destruct (ratio_ self) as [r|]; [|reflexivity].
  rewrite f_nn_. destruct (nn_ self) as [nn|]; [|reflexivity].
  destruct (np_mask X _) as [X_class|e]; [|by rewrite f_set_nn_].
  destruct (np_mask y _) as [y_class|e]; [|by rewrite f_set_nn_].
  rewrite <- !f_set_nn_, !f_nn_, !f_kind_sel, !f_threshold_cleaning. simpl.
  destruct (result_mapM _ X_class) as [neighbours|e]; [|reflexivity].
  destruct (result_mapM _ _) as [nnhood_label|e]; [|reflexivity].
  destruct (nnhood_bool_of _ _ _ _) as [nnhood_bool|e]; reflexivity.
Qed.

End Frame.

Lemma stage_a1_state X y self : (stage_a1 enn_fit_sample X y self).1 = self.
Proof.
  unfold stage_a1, bind, lift, get, ret. simpl.
  destruct (enn_fit_sample _ X y) as [[[X_enn y_enn] kept]|e]; [|reflexivity].
  destruct (assign_false _ kept); reflexivity.
Qed.

Lemma stage_a1_frame (f : NeighbourhoodCleaningRule Row -> NeighbourhoodCleaningRule Row)
    X y self :
  enn_fit_sample (enn_of (f self)) X y = enn_fit_sample (enn_of self) X y ->
  stage_a1 enn_fit_sample X y (f self)
  = let '(s', r) := stage_a1 enn_fit_sample X y self in (f s', r).
Proof.
  intros Henn. unfold stage_a1, bind, lift, get, ret. simpl. rewrite Henn.
  clear Henn.
  destruct (enn_fit_sample (enn_of self) X y) as [[[X_enn y_enn] kept]|e];
    [|reflexivity].
  destruct (assign_false _ kept); reflexivity.
Qed.

Section SampleFrame.

Variable f : NeighbourhoodCleaningRule Row -> NeighbourhoodCleaningRule Row.
Variables (X : list Row) (y : list Z) (self : NeighbourhoodCleaningRule Row).
Hypothesis f_stage_a1 :
  stage_a1 enn_fit_sample X y (f self)
  = let '(s', r) := stage_a1 enn_fit_sample X y self in (f s', r).
Hypothesis f_stage_a2 :
  stage_a2 kneighbors X y (f self)
  = let '(s', r) := stage_a2 kneighbors X y self in (f s', r).

Lemma _sample_frame :
  (forall s, return_indices (f s) = return_indices s) ->
  _sample enn_fit_sample kneighbors X y (f self)
  = let '(s', r) := _sample enn_fit_sample kneighbors X y self in (f s', r).
Proof using f_stage_a1 f_stage_a2.
  intros Hri. unfold _sample, bind. rewrite f_stage_a1.
  pose proof (stage_a1_state X y self) as Hs1.
  destruct (stage_a1 enn_fit_sample X y self) as [s1 [a1|e]]; simpl in Hs1; subst s1;
    [|reflexivity].
  rewrite f_stage_a2.
  destruct (stage_a2 kneighbors X y self) as [s2 [a2|e]]; [|reflexivity].
  unfold lift, get, ret.
  destruct (index_target_class_of y a1 a2) as [retained|e]; [|reflexivity].
  destruct (np_take X retained); [|reflexivity].
  destruct (np_take y retained); [|reflexivity].
  rewrite Hri. destruct (return_indices s2); reflexivity.
Qed.

Lemma _sample_frame_without_index :
  (forall s, return_indices (f s) = false) ->
  _sample enn_fit_sample kneighbors X y (f self)
  = let '(s', r) := _sample enn_fit_sample kneighbors X y self in
    (f s', without_index r).
Proof using f_stage_a1 f_stage_a2.
  intros Hri. unfold _sample, bind. rewrite f_stage_a1.
  pose proof (stage_a1_state X y self) as Hs1.
  destruct (stage_a1 enn_fit_sample X y self) as [s1 [a1|e]]; simpl in Hs1; subst s1;
    [|reflexivity].
  rewrite f_stage_a2.
  destruct (stage_a2 kneighbors X y self) as [s2 [a2|e]]; [|reflexivity].
  unfold lift, get, ret.
  destruct (index_target_class_of y a1 a2) as [retained|e]; [|reflexivity].
  destruct (np_take X retained); [|reflexivity].
  destruct (np_take y retained); [|reflexivity].
  rewrite Hri. destruct (return_indices s2); reflexivity.
Qed.

End SampleFrame.

(** A second fit of [nn_] on the same data changes nothing. *)
Lemma stage_a2_refit X y self nn :
  nn_ self = Some nn ->
  stage_a2 kneighbors X y (set_nn_ (nn_fit X nn) self)
  = let '(s', r) := stage_a2 kneighbors X y self in (set_nn_ (nn_fit X nn) s', r).
Proof.
  intros Hnn. unfold stage_a2, bind, lift, get, put, attr, ret, raise.
  destruct (min_key (Counter y)) as [class_minority|e]; [|reflexivity].
  simpl. destruct (ratio_ self) as [r|]; [|reflexivity].
  rewrite Hnn.
  destruct (np_mask X _) as [X_class|e]; [|reflexivity].
  destruct (np_mask y _) as [y_class|e]; [|reflexivity].
  simpl. change (nn_fit X (nn_fit X nn)) with (nn_fit X nn).
  destruct (result_mapM _ X_class) as [neighbours|e]; [|reflexivity].
  destruct (result_mapM _ _) as [nnhood_label|e]; [|reflexivity].
  destruct (nnhood_bool_of _ _ _ _) as [nnhood_bool|e]; reflexivity.
Qed.

Lemma stage_a2_state_cases X y self s' r :
  stage_a2 kneighbors X y self = (s', r) ->
  s' = self \/ exists nn, nn_ self = Some nn /\ s' = set_nn_ (nn_fit X nn) self.
Proof.
  unfold stage_a2, bind, lift, get, put, attr, ret, raise.
  destruct (min_key (Counter y)) as [class_minority|e];
    [|intros H; inversion H; auto].
  destruct (ratio_ self) as [rt|]; [|intros H; inversion H; auto].
  destruct (nn_ self) as [nn|] eqn:Hnn; [|intros H; inversion H; auto].
  intros H. right. exists nn. split; [reflexivity|].
  destruct (np_mask X _) as [X_class|e]; [|by inversion H].
  destruct (np_mask y _) as [y_class|e]; [|by inversion H].
  simpl in H.
  destruct (result_mapM _ X_class) as [neighbours|e]; [|by inversion H].
  destruct (result_mapM _ _) as [nnhood_label|e]; [|by inversion H].
  destruct (nnhood_bool_of _ _ _ _) as [nnhood_bool|e]; by inversion H.
Qed.

Lemma _sample_state_cases X y self s' r :
  _sample enn_fit_sample kneighbors X y self = (s', r) ->
  s' = self \/ exists nn, nn_ self = Some nn /\ s' = set_nn_ (nn_fit X nn) self.
Proof.
  unfold _sample, bind.
  pose proof (stage_a1_state X y self) as Hs1.
  destruct (stage_a1 enn_fit_sample X y self) as [s1 [a1|e]]; simpl in Hs1; subst s1;
    [|intros H; inversion H; auto].
  destruct (stage_a2 kneighbors X y self) as [s2 [a2|e]] eqn:Ha2;
    apply stage_a2_state_cases in Ha2; [|intros H; inversion H; subst; assumption].
  unfold lift, get, ret.
  destruct (index_target_class_of y a1 a2) as [retained|e]; [|intros H; inversion H; subst; assumption].
  destruct (np_take X retained); [|intros H; inversion H; subst; assumption].
  destruct (np_take y retained); [|intros H; inversion H; subst; assumption].
  destruct (return_indices s2); intros H; inversion H; subst; assumption.
Qed.

Lemma _sample_again X y self s1 r1 :
  _sample enn_fit_sample kneighbors X y self = (s1, r1) ->
  _sample enn_fit_sample kneighbors X y s1 = (s1, r1).
Proof.
  intros H. destruct (_sample_state_cases _ _ _ _ _ H) as [->|(nn & Hnn & ->)];
    [assumption|].
  rewrite (_sample_frame (set_nn_ (nn_fit X nn))).
  - rewrite H. reflexivity.
  - by apply stage_a1_frame.
  - by apply stage_a2_refit.
  - reflexivity.
Qed.

(** ** Stage A2 in detail *)

Lemma map_negb_lookup (l : list bool) (k : nat) :
  map negb l !! k = Some true <-> l !! k = Some false.
Proof.
  revert k. induction l as [|b l IH]; intros [|k]; simpl; try done.
  destruct b; simpl; split; intros H; inversion H; reflexivity.
Qed.

Lemma classes_under_sample_elem (r : gmap Z nat) (t : Q) (n : nat) y (c : Z) :
  c ∈ classes_under_sample r t n (Counter y)
  <-> c ∈ y /\ is_Some (r !! c)
      /\ (inject_Z (Z.of_nat n) * t < inject_Z (Z.of_nat (occ c y)))%Q.
Proof.
  unfold classes_under_sample. rewrite list_elem_of_In, in_map_iff. split.
  - intros ([k m] & <- & Hin). apply filter_In in Hin as [Hin Hp]. simpl in *.
    apply list_elem_of_In, Counter_elem in Hin as [Hk <-].
    apply andb_true_iff in Hp as [Hr Hq].
    apply bool_decide_eq_true in Hr. apply Qlt_bool_iff in Hq. auto.
  - intros (Hc & Hr & Hq). exists (c, occ c y). split; [reflexivity|].
    apply filter_In. split.
    + apply list_elem_of_In, Counter_elem. auto.
    + simpl. apply andb_true_iff. split.
      * by apply bool_decide_eq_true.
      * by apply Qlt_bool_iff.
Qed.


Lemma index_a2_of_elem y (classes : list Z) (nnhood_idx : list (list nat))
    (nnhood_bool : list bool) (i : nat) :
  i ∈ index_a2_of y classes nnhood_idx nnhood_bool
  <-> exists k row l,
        nnhood_idx !! k = Some row /\ nnhood_bool !! k = Some false
        /\ i ∈ row /\ y !! i = Some l /\ l ∈ classes.
Proof.
  unfold index_a2_of.
  rewrite np_unique_elem, list_elem_of_In, filter_In, in_concat. split.
  - intros [(row & Hrow & Hi) Hp].
    apply list_elem_of_In, select_elem in Hrow as (k & Hk & Hb).
    apply map_negb_lookup in Hb.
    destruct (y !! i) as [l|] eqn:Hl; [|discriminate].
    apply bool_decide_eq_true in Hp.
    exists k, row, l. repeat split; try assumption. by apply list_elem_of_In.
  - intros (k & row & l & Hk & Hb & Hi & Hl & Hc). split.
    + exists row. split; [|by apply list_elem_of_In].
      apply list_elem_of_In, select_elem. exists k.
      split; [assumption | by apply map_negb_lookup].
    + rewrite Hl. by apply bool_decide_eq_true.
Qed.

Lemma stage_a2_Ok_inv X y self s' a2 :
  stage_a2 kneighbors X y self = (s', Ok a2) ->
  exists class_minority r nn X_class y_class neighbours nnhood_label nnhood_bool,
    min_key (Counter y) = Ok class_minority
    /\ ratio_ self = Some r
    /\ nn_ self = Some nn
    /\ s' = set_nn_ (nn_fit X nn) self
    /\ np_mask X (map (fun l => (l =? class_minority)%Z) y) = Ok X_class
    /\ np_mask y (map (fun l => (l =? class_minority)%Z) y) = Ok y_class
    /\ result_mapM (kneighbors (nn_fit X nn)) X_class = Ok neighbours
    /\ result_mapM (np_take y) (map (drop 1) neighbours) = Ok nnhood_label
    /\ nnhood_bool_of (kind_sel self) class_minority nnhood_label y_class
       = Ok nnhood_bool
    /\ a2 = index_a2_of y
              (classes_under_sample r (threshold_cleaning self) (length X) (Counter y))
              (map (drop 1) neighbours) nnhood_bool.
Proof.
  unfold stage_a2. intros H.
  apply bind_Ok_inv in H as (? & class_minority & Hmin & H).
  apply lift_Ok_inv in Hmin as [-> Hmin].
  apply bind_Ok_inv in H as (? & me & Hget & H).
  apply get_Ok_inv in Hget as [-> ->].
  apply bind_Ok_inv in H as (? & r & Hr & H).
  apply attr_Ok_inv in Hr as [-> Hr].
  apply bind_Ok_inv in H as (? & nn & Hnn & H).
  apply attr_Ok_inv in Hnn as [-> Hnn].
  apply bind_Ok_inv in H as (s1 & ? & Hput & H).
  apply put_Ok_inv in Hput as ->.
  apply bind_Ok_inv in H as (? & X_class & HX & H).
  apply lift_Ok_inv in HX as [-> HX].
  apply bind_Ok_inv in H as (? & y_class & Hy & H).
  apply lift_Ok_inv in Hy as [-> Hy].
  apply bind_Ok_inv in H as (? & me & Hget & H).
  apply get_Ok_inv in Hget as [-> ->].
  apply bind_Ok_inv in H as (? & nn' & Hnn' & H).
  apply attr_Ok_inv in Hnn' as [-> Hnn']. simpl in Hnn'. inversion Hnn'; subst nn'.
  apply bind_Ok_inv in H as (? & neighbours & Hnb & H).
  apply lift_Ok_inv in Hnb as [-> Hnb].
  apply bind_Ok_inv in H as (? & nnhood_label & Hlab & H).
  apply lift_Ok_inv in Hlab as [-> Hlab].
  apply bind_Ok_inv in H as (? & nnhood_bool & Hb & H).
  apply lift_Ok_inv in Hb as [-> Hb].
  apply ret_Ok_inv in H as [-> ->].
  exists class_minority, r, nn, X_class, y_class, neighbours, nnhood_label, nnhood_bool.
  repeat split; assumption || reflexivity.
Qed.

Lemma index_a2_of_bound y classes nnhood_idx nnhood_bool i :
  i ∈ index_a2_of y classes nnhood_idx nnhood_bool -> i < length y.
Proof.
  intros H. apply index_a2_of_elem in H as (_ & _ & l & _ & _ & _ & Hl & _).
  eapply lookup_lt_Some, Hl.
Qed.

Lemma stage_a2_returns X y self r nn :
  length X = length y ->
  y <> [] ->
  ratio_ self = Some r ->
  nn_ self = Some nn ->
  kind_sel self ∈ SEL_KIND ->
  (forall q, q ∈ X ->
     exists row, kneighbors (nn_fit X nn) q = Ok row
                 /\ forall i, i ∈ row -> i < length y) ->
  exists index_a2,
    stage_a2 kneighbors X y self = (set_nn_ (nn_fit X nn) self, Ok index_a2).
Proof.
  intros Hlen Hy Hr Hnn Hk Hkn.
  destruct (min_key_Ok y Hy) as (cm & Hmin).
  unfold stage_a2, bind, lift, get, put, attr, ret, raise.
  rewrite Hmin, Hr, Hnn. unfold np_mask.
  rewrite length_map, Hlen, Nat.eqb_refl. simpl.
  set (is_minority := map (fun l => (l =? cm)%Z) y).
  destruct (result_mapM_Ok_ex (kneighbors (nn_fit X nn))
              (fun row => forall i, i ∈ row -> i < length y)
              (select X is_minority)) as (nb & Hnb & Hrows).
  { intros q Hq. apply Hkn. eapply select_subset, Hq. }
  rewrite Hnb.
  destruct (result_mapM_Ok_ex (np_take y) (fun _ => True) (map (drop 1) nb))
    as (lab & Hlab & _).
  { intros row Hrow. apply list_elem_of_In, in_map_iff in Hrow as (row' & <- & Hin).
    rewrite Forall_forall in Hrows.
    destruct (np_take_Ok_ex y (drop 1 row')) as (v & Hv); [|eauto].
    intros i Hi. apply (Hrows row'); [by apply list_elem_of_In|].
    by apply (subseteq_drop 1 row'). }
  rewrite Hlab. unfold nnhood_bool_of, SEL_KIND in *.
  apply elem_of_cons in Hk as [->|Hk]; [simpl; eauto|].
  apply list_elem_of_singleton in Hk as ->. simpl. eauto.
Qed.

(** When the object is fitted with an accepted [kind_sel], [X] and [y] have
    as many rows, at least one, and the collaborators answer with indices of
    rows of [X], the cleaning pass returns. *)
Lemma _sample_returns X y self r nn :
  length X = length y ->
  y <> [] ->
  ratio_ self = Some r ->
  nn_ self = Some nn ->
  kind_sel self ∈ SEL_KIND ->
  (exists X_enn y_enn index_not_a1,
     enn_fit_sample (enn_of self) X y = Ok (X_enn, y_enn, index_not_a1)
     /\ forall i, i ∈ index_not_a1 -> i < length y) ->
  (forall q, q ∈ X ->
     exists row, kneighbors (nn_fit X nn) q = Ok row
                 /\ forall i, i ∈ row -> i < length y) ->
  exists out,
    _sample enn_fit_sample kneighbors X y self
    = (set_nn_ (nn_fit X nn) self, Ok out).
Proof.
  intros Hlen Hy Hr Hnn Hk (X_enn & y_enn & kept & Henn & Hkept) Hkn.
  destruct (assign_false_Ok_ex (np_ones (length y)) kept) as (m1 & Hm1).
  { unfold np_ones. by rewrite length_replicate. }
  assert (Ha1 : stage_a1 enn_fit_sample X y self = (self, Ok (flatnonzero m1))).
  { unfold stage_a1, bind, lift, get, ret. simpl. by rewrite Henn, Hm1. }
  destruct (stage_a2_returns X y self r nn Hlen Hy Hr Hnn Hk Hkn) as (a2 & Ha2).
  assert (Hb2 : forall i, i ∈ a2 -> i < length y).
  { apply stage_a2_Ok_inv in Ha2
      as (? & ? & ? & ? & ? & ? & ? & ? & _ & _ & _ & _ & _ & _ & _ & _ & _ & ->).
    intros i. apply index_a2_of_bound. }
  assert (Hb1 : forall i, i ∈ flatnonzero m1 -> i < length y)
    by (eapply stage_a1_elem, Ha1).
  destruct (assign_false_Ok_ex (np_ones (length y))
              (np_union1d (flatnonzero m1) a2)) as (m & Hm).
  { unfold np_ones. rewrite length_replicate. intros i Hi.
    apply np_union1d_elem in Hi as [Hi|Hi]; auto. }
  assert (Hret : index_target_class_of y (flatnonzero m1) a2 = Ok (flatnonzero m))
    by (unfold index_target_class_of; by rewrite Hm).
  destruct (index_target_class_of_spec _ _ _ _ Hret) as (_ & _ & Hmem).
  destruct (np_take_Ok_ex X (flatnonzero m)) as (X_res & HX).
  { intros i Hi. rewrite Hlen. by apply Hmem. }
  destruct (np_take_Ok_ex y (flatnonzero m)) as (y_res & HY).
  { intros i Hi. by apply Hmem. }
  unfold _sample, bind. rewrite Ha1, Ha2. unfold lift, get, ret.
  rewrite Hret, HX, HY. destruct (return_indices _); eauto.
Qed.


(** ** Stage A1 *)

(** C3: the Edited Nearest Neighbours pass is built with [kind_sel='mode']
    whatever the sampler's own [kind_sel], with the sampler's [n_neighbors],
    [random_state] and [n_jobs], and with [return_indices=True]; its error is
    the error of stage A1, and when it returns an index array within range,
    stage A1 returns exactly the indices of [range(n_samples)] that are not
    in that array. *)
Theorem stage_a1_complements_enn_selection X y self :
  enn_kind_sel (enn_of self) = "mode"%string
  /\ enn_n_neighbors (enn_of self) = n_neighbors self
  /\ enn_random_state (enn_of self) = random_state self
  /\ enn_n_jobs (enn_of self) = n_jobs self
  /\ enn_return_indices (enn_of self) = true
  /\ (forall e, enn_fit_sample (enn_of self) X y = Raise e ->
        stage_a1 enn_fit_sample X y self = (self, Raise e))
  /\ (forall X_enn y_enn index_not_a1,
        enn_fit_sample (enn_of self) X y = Ok (X_enn, y_enn, index_not_a1) ->
        (forall i, i ∈ index_not_a1 -> i < length y) ->
        exists index_a1, stage_a1 enn_fit_sample X y self = (self, Ok index_a1))
  /\ forall s' index_a1,
       stage_a1 enn_fit_sample X y self = (s', Ok index_a1) ->
       exists X_enn y_enn index_not_a1,
         enn_fit_sample (enn_of self) X y = Ok (X_enn, y_enn, index_not_a1)
         /\ StronglySorted lt index_a1
         /\ forall i, i ∈ index_a1 <-> i < length y /\ i ∉ index_not_a1.
Proof.
  repeat (split; [reflexivity|]). split; [|split].
  - intros e He. unfold stage_a1, bind, lift, get. simpl. by rewrite He.
  - intros X_enn y_enn kept He Hb.
    unfold stage_a1, bind, lift, get, ret. simpl. rewrite He.
    unfold assign_false.
    replace (in_bounds _ kept) with true; [eauto|].
    symmetry. apply in_bounds_spec. unfold np_ones.
    rewrite length_replicate. exact Hb.
  - intros s' a1 H.
    apply stage_a1_Ok_inv in H as (_ & X_enn & y_enn & kept & mask & He & Hm & ->).
    exists X_enn, y_enn, kept. split; [assumption|].
    split; [apply flatnonzero_sorted|].
    apply assign_false_Ok in Hm as (_ & _ & Hm).
    intros i. by rewrite flatnonzero_spec, Hm, np_ones_lookup.
Qed.

(** ** The index output *)

(** C8: with [return_indices] set, the third output is the index array whose
    rows of [X] and [y], taken in its order, are the first two outputs; with
    [return_indices] unset the same two outputs are returned without it, and
    an error is the same error either way. *)
Theorem return_indices_only_adds_index X y self :
  let run b :=
    _sample enn_fit_sample kneighbors X y (set_return_indices b self) in
  (forall s' out, run true = (s', Ok out) ->
     exists index_target_class,
       idx_under out = Some index_target_class
       /\ np_take X index_target_class = Ok (X_resampled out)
       /\ np_take y index_target_class = Ok (y_resampled out)
       /\ run false
          = (set_return_indices false s',
             Ok (mkResampled (X_resampled out) (y_resampled out) None)))
  /\ (forall s' e, run true = (s', Raise e) ->
        run false = (set_return_indices false s', Raise e)).
Proof.
  intros run.
  assert (Hrun : run false
                 = let '(s', r) := run true in
                   (set_return_indices false s', without_index r)).
  { unfold run.
    change (set_return_indices false self)
      with (set_return_indices false (set_return_indices true self)).
    apply _sample_frame_without_index.
    - by apply stage_a1_frame.
    - by apply stage_a2_frame.
    - reflexivity. }
  split.
  - intros s' out H. rewrite Hrun, H. simpl.
    apply _sample_Ok_inv in H
      as (a1 & a2 & retained & _ & _ & _ & HX & Hy & Hidx).
    exists retained. simpl in Hidx. auto.
  - intros s' e H. rewrite Hrun, H. reflexivity.
Qed.

(** ** Determinism *)

(** C10: a second cleaning call on the same object and data returns what the
    first returned and leaves the object as the first left it; the seed is
    read by stage A1 only to be handed to the Edited Nearest Neighbours pass,
    stage A2 runs alike under any seed, and whenever that pass answers alike
    for two seeds the whole cleaning call does too. *)
Theorem seed_only_forwarded X y self seed :
  (forall s1 r1,
     _sample enn_fit_sample kneighbors X y self = (s1, r1) ->
     _sample enn_fit_sample kneighbors X y s1 = (s1, r1))
  /\ enn_random_state (enn_of (set_random_state seed self)) = seed
  /\ stage_a2 kneighbors X y (set_random_state seed self)
     = (let '(s', r) := stage_a2 kneighbors X y self in
        (set_random_state seed s', r))
  /\ (enn_fit_sample (enn_of (set_random_state seed self)) X y
      = enn_fit_sample (enn_of self) X y ->
      _sample enn_fit_sample kneighbors X y (set_random_state seed self)
      = let '(s', r) := _sample enn_fit_sample kneighbors X y self in
        (set_random_state seed s', r)).
Proof.
  split; [apply _sample_again|]. split; [reflexivity|].
  assert (Ha2 : stage_a2 kneighbors X y (set_random_state seed self)
                = let '(s', r) := stage_a2 kneighbors X y self in
                  (set_random_state seed s', r))
    by (by apply stage_a2_frame).
  split; [exact Ha2|].
  intros Henn. apply _sample_frame.
  - by apply stage_a1_frame.
  - exact Ha2.
  - reflexivity.
Qed.

(** ** Fitting *)

Lemma fit_after_base X y self s1 :
  base_fit X y self = (s1, Ok tt) ->
  fit base_fit X y self
  = (with_nn_ s1,
     if negb (bool_decide (kind_sel s1 ∈ SEL_KIND)) then Raise NotImplementedError
     else if Qlt_bool 1 (threshold_cleaning s1) || Qlt_bool (threshold_cleaning s1) 0
          then Raise ValueError
          else Ok tt).
Proof.
  intros Hbase. unfold fit, bind, get, put, attr, ret, raise. rewrite Hbase. simpl.
  destruct (negb _); [reflexivity|].
  destruct (_ || _); reflexivity.
Qed.

Lemma out_of_range_iff (t : Q) :
  Qlt_bool 1 t || Qlt_bool t 0 = true <-> ~ (0 <= t /\ t <= 1)%Q.
Proof.
  rewrite orb_true_iff, !Qlt_bool_iff. split.
  - intros [H|H] [H0 H1].
    + by apply (Qlt_not_le _ _ H).
    + by apply (Qlt_not_le _ _ H).
  - intros H. destruct (Qlt_le_dec 1 t) as [|H1]; [by left|].
    destruct (Qlt_le_dec t 0) as [|H0]; [by right|]. tauto.
Qed.



(** C5, amended: when [fit] raises after the inherited fit has returned, the
    error is one of the two validation errors, the constructor parameters are
    as before the call, and the object is the one the inherited fit left with
    [nn_] assigned: the attributes written before validation stay. *)
Theorem failed_fit_keeps_written_attributes X y self s1 s' e :
  base_fit X y self = (s1, Ok tt) ->
  get_params s1 = get_params self ->
  fit base_fit X y self = (s', Raise e) ->
  (e = NotImplementedError /\ kind_sel self ∉ SEL_KIND
   \/ e = ValueError /\ kind_sel self ∈ SEL_KIND
      /\ ~ (0 <= threshold_cleaning self /\ threshold_cleaning self <= 1)%Q)
  /\ s' = with_nn_ s1
  /\ get_params s' = get_params self
  /\ X_shape_ s' = X_shape_ s1
  /\ ratio_ s' = ratio_ s1
  /\ nn_ s'
     = Some (nn_set_n_jobs (n_jobs self)
               (check_neighbors_object (n_neighbors self) 1)).
Proof.
  intros Hbase Hp Hfit.
  assert (Hks : kind_sel s1 = kind_sel self)
    by (unfold get_params in Hp; congruence).
  assert (Ht : threshold_cleaning s1 = threshold_cleaning self)
    by (unfold get_params in Hp; congruence).
  assert (Hj : n_jobs s1 = n_jobs self)
    by (unfold get_params in Hp; congruence).
  assert (Hn : n_neighbors s1 = n_neighbors self)
    by (unfold get_params in Hp; congruence).
  rewrite (fit_after_base _ _ _ _ Hbase), Hks, Ht in Hfit.
  assert (Hs : s' = with_nn_ s1) by (inversion Hfit; reflexivity).
  split.
  - destruct (decide (kind_sel self ∈ SEL_KIND)) as [Hin|Hout].
    + rewrite bool_decide_eq_true_2 in Hfit by assumption. simpl in Hfit.
      destruct (_ || _) eqn:Hb; [|inversion Hfit].
      right. split; [by inversion Hfit|]. split; [assumption|].
      by apply out_of_range_iff.
    + rewrite bool_decide_eq_false_2 in Hfit by assumption. simpl in Hfit.
      left. split; [by inversion Hfit | assumption].
  - subst s'. repeat split; try reflexivity.
    + exact Hp.
    + unfold with_nn_. simpl. by rewrite Hj, Hn.
Qed.
End Properties.

(** * The properties on concrete data *)

Import Doubles.

(** ** The ['all'] selection *)

(** C2: on [X0], [y0] the only minority sample (label 1) has the three
    neighbours 1, 2, 3, all of class 2.  Line 196 tests the neighbour labels
    for being non-zero, not for being the minority label (line 195 computes
    that comparison and drops it), so the sample is judged consistent, stage
    A2 is empty and every row is kept; under the unanimity test the sample is
    inconsistent and its three neighbours, of the eligible class 2, are the
    A2 group. *)
Theorem all_kind_tests_labels_for_nonzero :
  min_key (Counter y0) = Ok 1%Z
  /\ result_mapM (brute_kneighbors (mkNearestNeighbors 4 1 (Some X0))) [[0%Z]]
     = Ok [[0; 1; 2; 3]]
  /\ result_mapM (np_take y0) [[1; 2; 3]] = Ok [[2; 2; 2]%Z]
  /\ classes_under_sample r0 (1#2)%Q (length X0) (Counter y0) = [2%Z]
  /\ nnhood_bool_of "all" 1 [[2; 2; 2]%Z] [1%Z] = Ok [true]
  /\ all_neighbours_minority 1 [[2; 2; 2]%Z] = [false]
  /\ (stage_a2 brute_kneighbors X0 y0 fitted0).2 = Ok []
  /\ index_a2_of y0 [2%Z] [[1; 2; 3]] (all_neighbours_minority 1 [[2; 2; 2]%Z])
     = [1; 2; 3]
  /\ (_sample (enn_stub (seq 0 7)) brute_kneighbors X0 y0 fitted0).2
     = Ok (mkResampled X0 y0 None).
Proof. repeat split; vm_compute; reflexivity. Qed.

(** ** Fitting *)

Example fit_threshold_boundaries :
  (fit (base_fit_stub r0) X0 y0 (with_kind_sel_threshold "all" (3#2)%Q ncr0)).2
  = Raise ValueError
  /\ (fit (base_fit_stub r0) X0 y0 (with_kind_sel_threshold "all" (-1#10)%Q ncr0)).2
     = Raise ValueError
  /\ (fit (base_fit_stub r0) X0 y0 (with_kind_sel_threshold "mode" 0%Q ncr0)).2
     = Ok tt
  /\ (fit (base_fit_stub r0) X0 y0 (with_kind_sel_threshold "mode" 1%Q ncr0)).2
     = Ok tt.
Proof. repeat split; vm_compute; reflexivity. Qed.

(** C5 as stated fails: a fit that raises either validation error leaves the
    object with [nn_] assigned (lines 128-130 run before the checks), where
    it was unset before the call. *)
Lemma failed_fit_leaves_nn_assigned :
  (let '(s', r) := fit (base_fit_stub r0) X0 y0 ncr_bad_kind in
   r = Raise NotImplementedError
   /\ nn_ ncr_bad_kind = None
   /\ nn_ s' = Some (mkNearestNeighbors 4 1 None)
   /\ s' <> ncr_bad_kind)
  /\ (let '(s', r) := fit (base_fit_stub r0) X0 y0 ncr_bad_threshold in
      r = Raise ValueError
      /\ nn_ ncr_bad_threshold = None
      /\ nn_ s' = Some (mkNearestNeighbors 4 1 None)
      /\ s' <> ncr_bad_threshold).
Proof.
  split.
  - destruct (fit (base_fit_stub r0) X0 y0 ncr_bad_kind) as [s' r] eqn:E.
    vm_compute in E. inversion E; subst. clear E.
    repeat split. intros H. apply (f_equal nn_) in H. discriminate.
  - destruct (fit (base_fit_stub r0) X0 y0 ncr_bad_threshold) as [s' r] eqn:E.
    vm_compute in E. inversion E; subst. clear E.
    repeat split. intros H. apply (f_equal nn_) in H. discriminate.
Qed.




Lemma failed_fit_keeps_written_attributes_witness :
  let s1 := (base_fit_stub r0 X0 y0 ncr_bad_kind).1 in
  base_fit_stub r0 X0 y0 ncr_bad_kind = (s1, Ok tt)
  /\ get_params s1 = get_params ncr_bad_kind
  /\ fit (base_fit_stub r0) X0 y0 ncr_bad_kind
     = (with_nn_ s1, Raise NotImplementedError)
  /\ with_nn_ s1 = with_nn_ s1
  /\ get_params (with_nn_ s1) = get_params ncr_bad_kind
  /\ nn_ (with_nn_ s1)
     = Some (nn_set_n_jobs (n_jobs ncr_bad_kind)
               (check_neighbors_object (n_neighbors ncr_bad_kind) 1)).
Proof.
  intros s1.
  assert (H1 : base_fit_stub r0 X0 y0 ncr_bad_kind = (s1, Ok tt)) by reflexivity.
  assert (H2 : get_params s1 = get_params ncr_bad_kind) by reflexivity.
  assert (H3 : fit (base_fit_stub r0) X0 y0 ncr_bad_kind
               = (with_nn_ s1, Raise NotImplementedError))
    by (vm_compute; reflexivity).
  repeat (split; [assumption|]).
  destruct (failed_fit_keeps_written_attributes (base_fit_stub r0)
              X0 y0 ncr_bad_kind s1 _ _ H1 H2 H3) as (_ & Hs & Hp & _ & _ & Hn).
  auto.
Defined.

(** ** The cleaning pass on [X1], [y1]

    Stage A1 is [[5]] (the row the stub drops), stage A2 is [[2; 3]] (the
    class-2 neighbours of the two minority samples), rows 0, 1, 4, 6 stay. *)

Lemma sample1_run :
  _sample enn1 brute_kneighbors X1 y1 fitted1 = (after1, Ok cleaned1).
Proof. vm_compute. reflexivity. Qed.

Lemma retained_is_complement_of_noise_witness :
  _sample enn1 brute_kneighbors X1 y1 fitted1 = (after1, Ok cleaned1)
  /\ exists index_a1 index_a2 index_target_class,
       stage_a1 enn1 X1 y1 fitted1 = (fitted1, Ok index_a1)
       /\ stage_a2 brute_kneighbors X1 y1 fitted1 = (after1, Ok index_a2)
       /\ index_target_class_of y1 index_a1 index_a2 = Ok index_target_class
       /\ np_take X1 index_target_class = Ok (X_resampled cleaned1)
       /\ np_take y1 index_target_class = Ok (y_resampled cleaned1)
       /\ (forall i, i ∈ index_target_class -> i < length y1)
       /\ (forall i, i ∈ index_a1 \/ i ∈ index_a2 -> i ∉ index_target_class)
       /\ forall i, i ∈ index_target_class
                    <-> i < length y1 /\ (i ∉ index_a1) /\ i ∉ index_a2.
Proof.
  assert (H : _sample enn1 brute_kneighbors X1 y1 fitted1 = (after1, Ok cleaned1))
    by (vm_compute; reflexivity).
  split; [exact H|].
  exact (retained_is_complement_of_noise enn1 brute_kneighbors
           X1 y1 fitted1 after1 cleaned1 H).
Defined.

Lemma rows_follow_retained_indices_witness :
  _sample enn1 brute_kneighbors X1 y1 fitted1 = (after1, Ok cleaned1)
  /\ exists index_a1 index_a2 index_target_class,
       stage_a1 enn1 X1 y1 fitted1 = (fitted1, Ok index_a1)
       /\ stage_a2 brute_kneighbors X1 y1 fitted1 = (after1, Ok index_a2)
       /\ index_target_class_of y1 index_a1 index_a2 = Ok index_target_class
       /\ StronglySorted lt index_target_class
       /\ length (X_resampled cleaned1) = length index_target_class
       /\ length (y_resampled cleaned1) = length index_target_class
       /\ (forall k i, index_target_class !! k = Some i ->
             i < length X1 /\ i < length y1
             /\ X_resampled cleaned1 !! k = X1 !! i
             /\ y_resampled cleaned1 !! k = y1 !! i)
       /\ exists nn, nn_ fitted1 = Some nn /\ after1 = set_nn_ (nn_fit X1 nn) fitted1.
Proof.
  assert (H : _sample enn1 brute_kneighbors X1 y1 fitted1 = (after1, Ok cleaned1))
    by (vm_compute; reflexivity).
  split; [exact H|].
  exact (rows_follow_retained_indices enn1 brute_kneighbors
           X1 y1 fitted1 after1 cleaned1 H).
Defined.


Lemma stage_a1_complements_enn_selection_witness :
  stage_a1 enn1 X1 y1 fitted1 = (fitted1, Ok [5])
  /\ exists X_enn y_enn index_not_a1,
       enn1 (enn_of fitted1) X1 y1 = Ok (X_enn, y_enn, index_not_a1)
       /\ StronglySorted lt [5]
       /\ forall i, i ∈ [5] <-> i < length y1 /\ i ∉ index_not_a1.
Proof.
  assert (H : stage_a1 enn1 X1 y1 fitted1 = (fitted1, Ok [5]))
    by (vm_compute; reflexivity).
  split; [exact H|].
  destruct (stage_a1_complements_enn_selection enn1 X1 y1 fitted1)
    as (_ & _ & _ & _ & _ & _ & _ & Hcompl).
  exact (Hcompl fitted1 [5] H).
Defined.

Lemma return_indices_only_adds_index_witness :
  _sample enn1 brute_kneighbors X1 y1 (set_return_indices true fitted1)
  = (after1, Ok cleaned1)
  /\ exists index_target_class,
       idx_under cleaned1 = Some index_target_class
       /\ np_take X1 index_target_class = Ok (X_resampled cleaned1)
       /\ np_take y1 index_target_class = Ok (y_resampled cleaned1)
       /\ _sample enn1 brute_kneighbors X1 y1 (set_return_indices false fitted1)
          = (set_return_indices false after1,
             Ok (mkResampled (X_resampled cleaned1) (y_resampled cleaned1) None)).
Proof.
  assert (H : _sample enn1 brute_kneighbors X1 y1 (set_return_indices true fitted1)
              = (after1, Ok cleaned1)) by (vm_compute; reflexivity).
  split; [exact H|].
  destruct (return_indices_only_adds_index enn1 brute_kneighbors X1 y1 fitted1)
    as [Hok _].
  exact (Hok after1 cleaned1 H).
Defined.

Lemma seed_only_forwarded_witness :
  enn1 (enn_of (set_random_state (RandomSeed 42) fitted1)) X1 y1
  = enn1 (enn_of fitted1) X1 y1
  /\ _sample enn1 brute_kneighbors X1 y1 (set_random_state (RandomSeed 42) fitted1)
     = (set_random_state (RandomSeed 42) after1, Ok cleaned1)
  /\ _sample enn1 brute_kneighbors X1 y1 after1 = (after1, Ok cleaned1).
Proof.
  assert (He : enn1 (enn_of (set_random_state (RandomSeed 42) fitted1)) X1 y1
               = enn1 (enn_of fitted1) X1 y1) by reflexivity.
  assert (H : _sample enn1 brute_kneighbors X1 y1 fitted1 = (after1, Ok cleaned1))
    by (vm_compute; reflexivity).
  destruct (seed_only_forwarded enn1 brute_kneighbors X1 y1 fitted1 (RandomSeed 42))
    as (Hagain & _ & _ & Hseed).
  split; [exact He|]. split.
  - rewrite (Hseed He), H. reflexivity.
  - exact (Hagain after1 (Ok cleaned1) H).
Defined.

(** * Further properties of the cleaning pass *)

(** ** Lists, counters and the minority class *)

Lemma min_from_elem (best : Z * nat) (cnt : list (Z * nat)) :
  min_from best cnt ∈ best :: cnt.
Proof.
  revert best. induction cnt as [|kn cnt IH]; intros best; simpl.
  - by left.
  - destruct (kn.2 <? best.2).
    + right. apply IH.
    + specialize (IH best). apply elem_of_cons in IH as [->|IH].
      * by left.
      * right. by right.
Qed.

Lemma min_from_le (best kn : Z * nat) (cnt : list (Z * nat)) :
  kn ∈ best :: cnt -> (min_from best cnt).2 <= kn.2.
Proof.
  revert best kn. induction cnt as [|kn' cnt IH]; intros best kn Hin; simpl.
  - apply list_elem_of_singleton in Hin as ->. lia.
  - destruct (kn'.2 <? best.2) eqn:E.
    + apply Nat.ltb_lt in E.
      apply elem_of_cons in Hin as [->|Hin].
      * etransitivity; [apply (IH kn' kn'); by left | lia].
      * by apply IH.
    + apply Nat.ltb_ge in E.
      apply elem_of_cons in Hin as [->|Hin]; [apply IH; by left|].
      apply elem_of_cons in Hin as [->|Hin].
      * etransitivity; [apply (IH best best); by left | lia].
      * apply IH. by right.
Qed.

Lemma min_key_minimal (y : list Z) (cm : Z) :
  min_key (Counter y) = Ok cm ->
  cm ∈ y /\ forall c, c ∈ y -> occ cm y <= occ c y.
Proof.
  unfold min_key. destruct (Counter y) as [|kn cnt] eqn:E; [discriminate|].
  intros H. inversion H as [Hcm]. clear H.
  pose proof (min_from_elem kn cnt) as Hin. rewrite <- E in Hin.
  destruct (min_from kn cnt) as [k n] eqn:Emin. simpl in *.
  apply Counter_elem in Hin as [Hk Hn]. split; [assumption|].
  intros c Hc.
  assert (Hc' : (c, occ c y) ∈ kn :: cnt)
    by (rewrite <- E; apply Counter_elem; auto).
  pose proof (min_from_le kn (c, occ c y) cnt Hc') as Hle.
  rewrite Emin in Hle. simpl in Hle. lia.
Qed.

Lemma sorted_lt_ext (l k : list nat) :
  StronglySorted lt l -> StronglySorted lt k ->
  (forall x, x ∈ l <-> x ∈ k) -> l = k.
Proof.
  intros Hl. revert k. induction Hl as [|a l Hl IH Ha]; intros k Hk Hext.
  - destruct k as [|b k]; [reflexivity|].
    exfalso. apply (not_elem_of_nil b), Hext. by left.
  - destruct Hk as [|b k Hk Hb].
    + exfalso. apply (not_elem_of_nil a), Hext. by left.
    + rewrite Forall_forall in Ha, Hb.
      assert (a = b).
      { assert (Ha1 : a ∈ b :: k) by (apply Hext; by left).
        assert (Hb1 : b ∈ a :: l) by (apply Hext; by left).
        apply elem_of_cons in Ha1 as [?|Ha1]; [assumption|].
        apply elem_of_cons in Hb1 as [?|Hb1]; [congruence|].
        apply Hb in Ha1. apply Ha in Hb1. lia. }
      subst b. f_equal. apply IH; [assumption|].
      intros x. split; intros Hx.
      * assert (Hx' : x ∈ a :: k) by (apply Hext; by right).
        apply elem_of_cons in Hx' as [->|Hx']; [|assumption].
        apply Ha in Hx. lia.
      * assert (Hx' : x ∈ a :: l) by (apply Hext; by right).
        apply elem_of_cons in Hx' as [->|Hx']; [|assumption].
        apply Hb in Hx. lia.
Qed.

Lemma no_elem_nil {A} (l : list A) : (forall x, x ∉ l) -> l = [].
Proof. destruct l as [|a l]; [reflexivity|]. intros H. exfalso. apply (H a). by left. Qed.

Lemma select_map_holds {A} (f : A -> bool) (a : list A) (x : A) :
  x ∈ select a (map f a) -> f x = true.
Proof.
  induction a as [|v a IH]; simpl; [by intros ?%elem_of_nil|].
  destruct (f v) eqn:E; [|assumption].
  intros [->|H]%elem_of_cons; auto.
Qed.

Lemma select_map_nonempty {A B} (f : B -> bool) (a : list A) (b : list B) (x : B) :
  length a = length b -> x ∈ b -> f x = true -> select a (map f b) <> [].
Proof.
  revert a. induction b as [|v b IH]; intros a Hlen Hx Hf;
    [by apply elem_of_nil in Hx|].
  destruct a as [|u a]; [discriminate|]. simpl in *.
  destruct (f v) eqn:E; [discriminate|].
  apply elem_of_cons in Hx as [->|Hx]; [congruence|].
  apply IH; [lia | assumption | assumption].
Qed.

Lemma select_length_same {A B} (a : list A) (b : list B) (mask : list bool) :
  length a = length b -> length (select a mask) = length (select b mask).
Proof.
  revert b mask. induction a as [|u a IH]; intros b mask Hlen.
  - destruct b; [reflexivity | discriminate].
  - destruct b as [|v b]; [discriminate|]. simpl in Hlen.
    destruct mask as [|m mask]; [reflexivity|].
    destruct m; simpl.
    + f_equal. apply IH. lia.
    + apply IH. lia.
Qed.

Lemma occ_le_length (c : Z) (y : list Z) : occ c y <= length y.
Proof.
  induction y as [|x y IH]; [unfold occ; simpl; lia|].
  rewrite occ_cons. simpl. destruct (decide (x = c)); lia.
Qed.

Lemma occ_two_classes (c d : Z) (y : list Z) :
  c <> d -> occ c y + occ d y <= length y.
Proof.
  intros Hne. induction y as [|x y IH]; [unfold occ; simpl; lia|].
  rewrite !occ_cons. simpl.
  destruct (decide (x = c)), (decide (x = d)); lia.
Qed.

Lemma np_mask_Ok_inv {A} (a : list A) (mask : list bool) (r : list A) :
  np_mask a mask = Ok r -> length a = length mask /\ r = select a mask.
Proof.
  unfold np_mask. destruct (length a =? length mask) eqn:E; [|discriminate].
  apply Nat.eqb_eq in E. intros H. inversion H. auto.
Qed.

Lemma result_mapM_Raise_head {A B} (f : A -> result B) (l : list A) e :
  l <> [] -> (forall a, a ∈ l -> f a = Raise e) -> result_mapM f l = Raise e.
Proof.
  destruct l as [|a l]; [congruence|]. intros _ H. simpl.
  rewrite (H a) by (by left). reflexivity.
Qed.

Lemma np_take_labels (y : list Z) (row : list nat) (labels : list Z) :
  np_take y row = Ok labels -> forall l, l ∈ labels -> l ∈ y.
Proof.
  rewrite np_take_Forall2. intros H l Hl.
  apply list_elem_of_lookup in Hl as (k & Hk).
  destruct (Forall2_lookup_r _ _ _ _ _ H Hk) as (i & _ & Hi).
  eapply list_elem_of_lookup_2, Hi.
Qed.

(** X1: lines 178-179: [class_minority] is a label of
    [y] that no other label of [y] is rarer than; an empty [y] makes [min]
    raise [ValueError]. *)
Theorem class_minority_is_least_frequent (y : list Z) :
  (y = [] -> min_key (Counter y) = Raise ValueError)
  /\ (y <> [] -> exists class_minority, min_key (Counter y) = Ok class_minority)
  /\ forall class_minority,
       min_key (Counter y) = Ok class_minority ->
       class_minority ∈ y
       /\ forall c, c ∈ y -> occ class_minority y <= occ c y.
Proof.
  split; [intros ->; reflexivity|].
  split; [apply min_key_Ok | apply min_key_minimal].
Qed.

Section MoreProperties.

Context {Row : Type}.
Variable base_fit : list Row -> list Z -> Py (NeighbourhoodCleaningRule Row) unit.
Variable enn_fit_sample :
  EditedNearestNeighbours -> list Row -> list Z ->
  result (list Row * list Z * list nat).
Variable kneighbors : NearestNeighbors Row -> Row -> result (list nat).

Implicit Types (self : NeighbourhoodCleaningRule Row) (X : list Row) (y : list Z).

Local Set Default Proof Using "Type".

(** ** Runs of the two stages *)

Lemma stage_a1_run X y self X_enn y_enn index_not_a1 :
  enn_fit_sample (enn_of self) X y = Ok (X_enn, y_enn, index_not_a1) ->
  stage_a1 enn_fit_sample X y self
  = (self,
     match assign_false (np_ones (length y)) index_not_a1 with
     | Ok mask => Ok (flatnonzero mask)
     | Raise e => Raise e
     end).
Proof.
  intros He. unfold stage_a1, bind, lift, get, ret. simpl. rewrite He.
  destruct (assign_false _ _); reflexivity.
Qed.

Lemma stage_a1_run_Ok X y self X_enn y_enn index_not_a1 :
  enn_fit_sample (enn_of self) X y = Ok (X_enn, y_enn, index_not_a1) ->
  (forall i, i ∈ index_not_a1 -> i < length y) ->
  exists index_a1,
    stage_a1 enn_fit_sample X y self = (self, Ok index_a1)
    /\ forall i, i ∈ index_a1 -> i < length y.
Proof.
  intros He Hb. rewrite (stage_a1_run _ _ _ _ _ _ He).
  destruct (assign_false_Ok_ex (np_ones (length y)) index_not_a1) as (m & Hm).
  { unfold np_ones. by rewrite length_replicate. }
  rewrite Hm. exists (flatnonzero m). split; [reflexivity|].
  intros i Hi. apply assign_false_Ok in Hm as (_ & _ & Hm).
  apply flatnonzero_spec, Hm in Hi as [Hi _]. by apply np_ones_lookup.
Qed.

Lemma stage_a2_run X y self r nn :
  length X = length y ->
  y <> [] ->
  ratio_ self = Some r ->
  nn_ self = Some nn ->
  (forall q, q ∈ X ->
     exists row, kneighbors (nn_fit X nn) q = Ok row
                 /\ forall i, i ∈ row -> i < length y) ->
  exists class_minority neighbours nnhood_label,
    min_key (Counter y) = Ok class_minority
    /\ result_mapM (kneighbors (nn_fit X nn))
         (select X (map (fun l => (l =? class_minority)%Z) y)) = Ok neighbours
    /\ result_mapM (np_take y) (map (drop 1) neighbours) = Ok nnhood_label
    /\ stage_a2 kneighbors X y self
       = (set_nn_ (nn_fit X nn) self,
          match nnhood_bool_of (kind_sel self) class_minority nnhood_label
                  (select y (map (fun l => (l =? class_minority)%Z) y)) with
          | Ok nnhood_bool =>
              Ok (index_a2_of y
                    (classes_under_sample r (threshold_cleaning self)
                       (length X) (Counter y))
                    (map (drop 1) neighbours) nnhood_bool)
          | Raise e => Raise e
          end).
Proof.
  intros Hlen Hy Hr Hnn Hkn.
  destruct (min_key_Ok y Hy) as (cm & Hmin).
  set (is_minority := map (fun l => (l =? cm)%Z) y).
  destruct (result_mapM_Ok_ex (kneighbors (nn_fit X nn))
              (fun row => forall i, i ∈ row -> i < length y)
              (select X is_minority)) as (nb & Hnb & Hrows).
  { intros q Hq. apply Hkn. eapply select_subset, Hq. }
  destruct (result_mapM_Ok_ex (np_take y) (fun _ => True) (map (drop 1) nb))
    as (lab & Hlab & _).
  { intros row Hrow. apply list_elem_of_In, in_map_iff in Hrow as (row' & <- & Hin).
    rewrite Forall_forall in Hrows.
    destruct (np_take_Ok_ex y (drop 1 row')) as (v & Hv); [|eauto].
    intros i Hi. apply (Hrows row'); [by apply list_elem_of_In|].
    by apply (subseteq_drop 1 row'). }
  exists cm, nb, lab. repeat (split; [assumption|]).
  unfold stage_a2, bind, lift, get, put, attr, ret, raise.
  rewrite Hmin, Hr, Hnn. unfold np_mask.
  rewrite length_map, Hlen, Nat.eqb_refl. simpl.
  fold is_minority. rewrite Hnb, Hlab.
  destruct (nnhood_bool_of _ _ _ _); reflexivity.
Qed.

Lemma _sample_a2_Raise X y self a1 s2 e :
  stage_a1 enn_fit_sample X y self = (self, Ok a1) ->
  stage_a2 kneighbors X y self = (s2, Raise e) ->
  _sample enn_fit_sample kneighbors X y self = (s2, Raise e).
Proof.
  intros Ha1 Ha2. unfold _sample, bind. by rewrite Ha1, Ha2.
Qed.

(** ** Errors and edge cases *)

(** X2: a sampler that was only constructed has no [ratio_]: the cleaning
    pass called on it runs the Edited Nearest Neighbours pass, picks the
    minority class and then raises [AttributeError] on line 182, leaving the
    object as constructed. *)
Theorem _sample_before_fit_raises X y
    ratio0 return_indices0 random_state0 size_ngh0 n_neighbors0 kind_sel0
    threshold_cleaning0 n_jobs0 X_enn y_enn index_not_a1 :
  let self : NeighbourhoodCleaningRule Row :=
    __init__ ratio0 return_indices0 random_state0 size_ngh0 n_neighbors0
      kind_sel0 threshold_cleaning0 n_jobs0 in
  y <> [] ->
  enn_fit_sample (enn_of self) X y = Ok (X_enn, y_enn, index_not_a1) ->
  (forall i, i ∈ index_not_a1 -> i < length y) ->
  _sample enn_fit_sample kneighbors X y self = (self, Raise AttributeError).
Proof.
  intros self Hy He Hb.
  destruct (stage_a1_run_Ok _ _ _ _ _ _ He Hb) as (a1 & Ha1 & _).
  apply (_sample_a2_Raise _ _ _ a1); [assumption|].
  destruct (min_key_Ok y Hy) as (cm & Hmin).
  unfold stage_a2, bind, lift, get, attr, raise. by rewrite Hmin.
Qed.

(** X3: on an empty [y] the cleaning pass raises: [ValueError] from [min] on
    line 179 when the Edited Nearest Neighbours pass returned no index,
    [IndexError] from line 174 when it returned one; the object is
    untouched. *)
Theorem _sample_empty_y_raises X self X_enn y_enn index_not_a1 :
  enn_fit_sample (enn_of self) X [] = Ok (X_enn, y_enn, index_not_a1) ->
  _sample enn_fit_sample kneighbors X [] self
  = (self, Raise (match index_not_a1 with
                  | [] => ValueError
                  | _ :: _ => IndexError
                  end)).
Proof.
  intros He. unfold _sample, bind.
  rewrite (stage_a1_run _ _ _ _ _ _ He).
  destruct index_not_a1 as [|i idx]; reflexivity.
Qed.

(** X4: with a [kind_sel] that is neither ['mode'] nor ['all'] the cleaning
    pass itself does not check it: on valid data it runs the Edited Nearest
    Neighbours pass, refits [nn_], queries the neighbours and only then
    raises [UnboundLocalError] on line 198. *)
Theorem _sample_unknown_kind_sel_raises X y self r nn :
  length X = length y ->
  y <> [] ->
  ratio_ self = Some r ->
  nn_ self = Some nn ->
  kind_sel self ∉ SEL_KIND ->
  (exists X_enn y_enn index_not_a1,
     enn_fit_sample (enn_of self) X y = Ok (X_enn, y_enn, index_not_a1)
     /\ forall i, i ∈ index_not_a1 -> i < length y) ->
  (forall q, q ∈ X ->
     exists row, kneighbors (nn_fit X nn) q = Ok row
                 /\ forall i, i ∈ row -> i < length y) ->
  _sample enn_fit_sample kneighbors X y self
  = (set_nn_ (nn_fit X nn) self, Raise UnboundLocalError).
Proof.
  intros Hlen Hy Hr Hnn Hk (X_enn & y_enn & kept & He & Hb) Hkn.
  destruct (stage_a1_run_Ok _ _ _ _ _ _ He Hb) as (a1 & Ha1 & _).
  apply (_sample_a2_Raise _ _ _ a1); [assumption|].
  destruct (stage_a2_run X y self r nn Hlen Hy Hr Hnn Hkn)
    as (cm & nb & lab & _ & _ & _ & ->).
  unfold nnhood_bool_of, SEL_KIND in *.
  destruct (String.eqb_spec (kind_sel self) "mode") as [E|_].
  { exfalso. apply Hk. rewrite E. right. by left. }
  destruct (String.eqb_spec (kind_sel self) "all") as [E|_].
  { exfalso. apply Hk. rewrite E. by left. }
  reflexivity.
Qed.

(** X5: an error of a collaborator is the error of the cleaning pass.  When
    the Edited Nearest Neighbours pass raises, the object is untouched and
    no neighbour is queried; when the neighbour query raises on the rows of
    [X] (as with fewer rows than neighbours asked for), [nn_] has already
    been refitted. *)
Theorem collaborator_errors_propagate X y self e :
  (enn_fit_sample (enn_of self) X y = Raise e ->
   _sample enn_fit_sample kneighbors X y self = (self, Raise e))
  /\ (forall r nn,
        length X = length y ->
        y <> [] ->
        ratio_ self = Some r ->
        nn_ self = Some nn ->
        (exists X_enn y_enn index_not_a1,
           enn_fit_sample (enn_of self) X y = Ok (X_enn, y_enn, index_not_a1)
           /\ forall i, i ∈ index_not_a1 -> i < length y) ->
        (forall q, q ∈ X -> kneighbors (nn_fit X nn) q = Raise e) ->
        _sample enn_fit_sample kneighbors X y self
        = (set_nn_ (nn_fit X nn) self, Raise e)).
Proof.
  split.
  - intros He.
    assert (Ha1 : stage_a1 enn_fit_sample X y self = (self, Raise e))
      by (unfold stage_a1, bind, lift, get; simpl; by rewrite He).
    unfold _sample. by apply bind_Raise.
  - intros r nn Hlen Hy Hr Hnn (X_enn & y_enn & kept & He & Hb) Hkn.
    destruct (stage_a1_run_Ok _ _ _ _ _ _ He Hb) as (a1 & Ha1 & _).
    apply (_sample_a2_Raise _ _ _ a1); [assumption|].
    destruct (min_key_Ok y Hy) as (cm & Hmin).
    destruct (min_key_minimal y cm Hmin) as [Hcm _].
    unfold stage_a2, bind, lift, get, put, attr, ret, raise.
    rewrite Hmin, Hr, Hnn. unfold np_mask.
    rewrite length_map, Hlen, Nat.eqb_refl. simpl.
    rewrite (result_mapM_Raise_head _ _ e); [reflexivity| |].
    + apply (select_map_nonempty _ X y cm Hlen Hcm), Z.eqb_refl.
    + intros q Hq. apply Hkn. eapply select_subset, Hq.
Qed.


(** ** What stage A2 can remove *)

Lemma nnhood_label_in_y y (nnhood_idx : list (list nat))
    (nnhood_label : list (list Z)) (labels : list Z) (l : Z) :
  result_mapM (np_take y) nnhood_idx = Ok nnhood_label ->
  labels ∈ nnhood_label -> l ∈ labels -> l ∈ y.
Proof.
  rewrite result_mapM_Forall2. intros H Hlabels Hl.
  apply list_elem_of_lookup in Hlabels as (k & Hk).
  destruct (Forall2_lookup_r _ _ _ _ _ H Hk) as (row & _ & Hrow).
  eapply np_take_labels; eassumption.
Qed.

(** X6: with [kind_sel='all'] line 196 only asks whether the neighbour labels
    are non-zero, so on data in which no sample bears the label 0 every
    minority sample is judged consistent: stage A2 is empty and the pass
    keeps exactly the rows the Edited Nearest Neighbours pass keeps. *)
Theorem all_kind_without_label_zero_cleans_nothing X y self s' out :
  kind_sel self = "all"%string ->
  0%Z ∉ y ->
  _sample enn_fit_sample kneighbors X y self = (s', Ok out) ->
  stage_a2 kneighbors X y self = (s', Ok [])
  /\ exists index_a1 index_target_class,
       stage_a1 enn_fit_sample X y self = (self, Ok index_a1)
       /\ np_take X index_target_class = Ok (X_resampled out)
       /\ np_take y index_target_class = Ok (y_resampled out)
       /\ forall i, i ∈ index_target_class <-> i < length y /\ i ∉ index_a1.
Proof.
  intros Hkind H0 H.
  apply _sample_Ok_inv in H
    as (a1 & a2 & retained & Ha1 & Ha2 & Hret & HX & HY & _).
  assert (Hempty : a2 = []).
  { pose proof Ha2 as Hinv.
    apply stage_a2_Ok_inv in Hinv
      as (cm & r & nn & X_class & y_class & nb & lab & nb_bool
          & _ & _ & _ & _ & _ & _ & _ & Hlab & Hb & ->).
    apply no_elem_nil. intros i Hi.
    apply index_a2_of_elem in Hi as (k & row & l & _ & Hk & _).
    rewrite Hkind in Hb. unfold nnhood_bool_of in Hb. simpl in Hb.
    inversion Hb; subst nb_bool. clear Hb.
    change (map ?f lab) with (f <$> lab) in Hk.
    rewrite list_lookup_fmap in Hk.
    destruct (lab !! k) as [labels|] eqn:Hlabels; [|discriminate].
    simpl in Hk. inversion Hk as [Hall]. clear Hk.
    apply not_true_iff_false in Hall. apply Hall.
    apply forallb_forall. intros l' Hl'. apply negb_true_iff, Z.eqb_neq.
    intros ->. apply H0.
    eapply nnhood_label_in_y; [exact Hlab | | by apply list_elem_of_In].
    eapply list_elem_of_lookup_2, Hlabels. }
  subst a2. split; [assumption|].
  exists a1, retained. repeat (split; [assumption|]).
  destruct (index_target_class_of_spec _ _ _ _ Hret) as (_ & _ & Hmem).
  intros i. rewrite Hmem. split.
  - intros (? & ? & _). auto.
  - intros [? ?]. repeat split; [assumption | assumption | apply not_elem_of_nil].
Qed.

(** X7: with [kind_sel='mode'] a minority sample is inconsistent exactly when
    the most frequent label among its neighbours (the smallest of several
    most frequent ones) is not the minority label: stage A2 is made of the
    eligible-class neighbours of those samples. *)
Theorem mode_kind_compares_mode_with_minority X y self s' index_a2 :
  kind_sel self = "mode"%string ->
  stage_a2 kneighbors X y self = (s', Ok index_a2) ->
  exists r nn class_minority neighbours,
    ratio_ self = Some r
    /\ nn_ self = Some nn
    /\ min_key (Counter y) = Ok class_minority
    /\ result_mapM (kneighbors (nn_fit X nn))
         (select X (map (fun l => (l =? class_minority)%Z) y)) = Ok neighbours
    /\ forall i,
         i ∈ index_a2
         <-> exists k row labels l,
               map (drop 1) neighbours !! k = Some row
               /\ np_take y row = Ok labels
               /\ mode_row labels <> class_minority
               /\ i ∈ row /\ y !! i = Some l
               /\ l ∈ classes_under_sample r (threshold_cleaning self)
                        (length X) (Counter y).
Proof.
  intros Hkind H.
  apply stage_a2_Ok_inv in H
    as (cm & r & nn & X_class & y_class & nb & lab & nb_bool
        & Hmin & Hr & Hnn & _ & HX & Hy & Hnb & Hlab & Hb & ->).
  apply np_mask_Ok_inv in HX as [HlenX ->].
  apply np_mask_Ok_inv in Hy as [Hleny ->].
  exists r, nn, cm, nb. repeat (split; [assumption|]).
  rewrite Hkind in Hb. unfold nnhood_bool_of in Hb. simpl in Hb.
  inversion Hb; subst nb_bool. clear Hb.
  set (mask := map (fun l => (l =? cm)%Z) y) in *.
  assert (Hlab2 : Forall2 (fun row labels => np_take y row = Ok labels)
                    (map (drop 1) nb) lab) by (by apply result_mapM_Forall2).
  assert (Hlen : length lab = length (select y mask)).
  { rewrite <- (Forall2_length _ _ _ Hlab2).
    change (map (drop 1) nb) with (drop 1 <$> nb). rewrite length_fmap.
    apply result_mapM_Forall2, Forall2_length in Hnb. rewrite <- Hnb.
    apply select_length_same. congruence. }
  assert (Hflag : forall k labels,
            lab !! k = Some labels ->
            zip_with Z.eqb (map mode_row lab) (select y mask) !! k
            = Some (mode_row labels =? cm)%Z).
  { intros k labels Hk.
    destruct (lookup_lt_is_Some_2 (select y mask) k) as [c Hc].
    { rewrite <- Hlen. eapply lookup_lt_Some, Hk. }
    assert (c = cm) as ->.
    { apply list_elem_of_lookup_2 in Hc.
      apply (select_map_holds (fun l => (l =? cm)%Z)) in Hc.
      by apply Z.eqb_eq in Hc. }
    rewrite lookup_zip_with.
    change (map mode_row lab) with (mode_row <$> lab).
    rewrite list_lookup_fmap, Hk, Hc. reflexivity. }
  intros i. rewrite index_a2_of_elem. split.
  - intros (k & row & l & Hk & Hbk & Hi & Hl & Hc).
    destruct (Forall2_lookup_l _ _ _ _ _ Hlab2 Hk) as (labels & Hlk & Htake).
    rewrite (Hflag k labels Hlk) in Hbk. inversion Hbk as [Hne].
    apply Z.eqb_neq in Hne. exists k, row, labels, l. auto 10.
  - intros (k & row & labels & l & Hk & Htake & Hne & Hi & Hl & Hc).
    exists k, row, l. repeat (split; [assumption|]). split; [|auto].
    destruct (Forall2_lookup_l _ _ _ _ _ Hlab2 Hk) as (labels' & Hlk & Htake').
    assert (labels' = labels) as -> by congruence.
    rewrite (Hflag k labels Hlk). f_equal. by apply Z.eqb_neq.
Qed.

Lemma stage_a2_lengths X y self s' a2 :
  stage_a2 kneighbors X y self = (s', Ok a2) -> length X = length y.
Proof.
  intros H.
  apply stage_a2_Ok_inv in H
    as (cm & r & nn & X_class & y_class & nb & lab & nb_bool
        & _ & _ & _ & _ & HX & Hy & _).
  apply np_mask_Ok_inv in HX as [HlenX _].
  apply np_mask_Ok_inv in Hy as [Hleny _]. congruence.
Qed.

Lemma stage_a2_elem_eligible X y self s' a2 r i :
  stage_a2 kneighbors X y self = (s', Ok a2) ->
  ratio_ self = Some r ->
  i ∈ a2 ->
  exists l, y !! i = Some l
            /\ l ∈ classes_under_sample r (threshold_cleaning self)
                     (length X) (Counter y).
Proof.
  intros H Hr Hi.
  apply stage_a2_Ok_inv in H
    as (cm & r' & nn & X_class & y_class & nb & lab & nb_bool
        & _ & Hr' & _ & _ & _ & _ & _ & _ & _ & ->).
  assert (r' = r) as -> by congruence.
  apply index_a2_of_elem in Hi as (_ & _ & l & _ & _ & _ & Hl & Hc). eauto.
Qed.

(** X8: a class can be cleaned only if it has more than
    [threshold_cleaning * n_samples] samples, so with a threshold of 1 or
    more stage A2 removes nothing. *)
Theorem threshold_one_cleans_nothing X y self s' index_a2 :
  (1 <= threshold_cleaning self)%Q ->
  stage_a2 kneighbors X y self = (s', Ok index_a2) ->
  index_a2 = [].
Proof.
  intros Ht H. pose proof (stage_a2_lengths _ _ _ _ _ H) as Hlen.
  pose proof H as Hinv.
  apply stage_a2_Ok_inv in Hinv
    as (cm & r & nn & X_class & y_class & nb & lab & nb_bool
        & _ & Hr & _).
  apply no_elem_nil. intros i Hi.
  destruct (stage_a2_elem_eligible _ _ _ _ _ r i H Hr Hi) as (l & _ & Hc).
  apply classes_under_sample_elem in Hc as (_ & _ & Hq).
  pose proof (occ_le_length l y) as Hocc.
  assert (Hz : (inject_Z (Z.of_nat (occ l y)) <= inject_Z (Z.of_nat (length X)))%Q)
    by (rewrite <- Zle_Qle; lia).
  assert (H0 : (0 <= inject_Z (Z.of_nat (length X)))%Q)
    by (change 0%Q with (inject_Z 0); rewrite <- Zle_Qle; lia).
  nra.
Qed.

(** X9: with a threshold of one half or more (the default is one half) and
    at least two classes in [y], the minority class has at most half of the
    samples and is never cleaned: no minority sample is in stage A2. *)
Theorem minority_not_cleaned_by_stage_a2 X y self s' index_a2 class_minority :
  ((1#2) <= threshold_cleaning self)%Q ->
  stage_a2 kneighbors X y self = (s', Ok index_a2) ->
  min_key (Counter y) = Ok class_minority ->
  (exists c, c ∈ y /\ c <> class_minority) ->
  forall i, i ∈ index_a2 -> y !! i <> Some class_minority.
Proof.
  intros Ht H Hmin (c & Hc & Hne) i Hi Hlabel.
  pose proof (stage_a2_lengths _ _ _ _ _ H) as Hlen.
  pose proof H as Hinv.
  apply stage_a2_Ok_inv in Hinv
    as (cm & r & nn & X_class & y_class & nb & lab & nb_bool
        & _ & Hr & _).
  destruct (stage_a2_elem_eligible _ _ _ _ _ r i H Hr Hi) as (l & Hl & Hcl).
  assert (l = class_minority) as -> by congruence.
  apply classes_under_sample_elem in Hcl as (_ & _ & Hq).
  destruct (min_key_minimal _ _ Hmin) as [_ Hleast].
  pose proof (Hleast c Hc) as Hle.
  pose proof (occ_two_classes class_minority c y (not_eq_sym Hne)) as Hsum.
  assert (Hz : (inject_Z 2 * inject_Z (Z.of_nat (occ class_minority y))
                <= inject_Z (Z.of_nat (length X)))%Q)
    by (rewrite <- inject_Z_mult, <- Zle_Qle; lia).
  assert (H0 : (0 <= inject_Z (Z.of_nat (length X)))%Q)
    by (change 0%Q with (inject_Z 0); rewrite <- Zle_Qle; lia).
  change (inject_Z 2) with 2%Q in Hz.
  nra.
Qed.


(** X11: raising [threshold_cleaning] can only shrink stage A2: the pass run
    with a higher threshold goes through the same steps and every index it
    puts in A2 is in the A2 group of the lower threshold. *)
Theorem higher_threshold_cleans_less X y self s' index_a2 threshold' :
  (threshold_cleaning self <= threshold')%Q ->
  stage_a2 kneighbors X y self = (s', Ok index_a2) ->
  exists index_a2',
    stage_a2 kneighbors X y (set_threshold_cleaning threshold' self)
    = (set_threshold_cleaning threshold' s', Ok index_a2')
    /\ forall i, i ∈ index_a2' -> i ∈ index_a2.
Proof.
  intros Ht H.
  apply stage_a2_Ok_inv in H
    as (cm & r & nn & X_class & y_class & nb & lab & nb_bool
        & Hmin & Hr & Hnn & -> & HX & Hy & Hnb & Hlab & Hb & ->).
  exists (index_a2_of y
            (classes_under_sample r threshold' (length X) (Counter y))
            (map (drop 1) nb) nb_bool).
  split.
  - unfold stage_a2, bind, lift, get, put, attr, ret, raise.
    rewrite Hmin. simpl. rewrite Hr, Hnn, HX, Hy. simpl.
    rewrite Hnb, Hlab, Hb. reflexivity.
  - intros i. rewrite !index_a2_of_elem.
    intros (k & row & l & Hk & Hbk & Hi & Hl & Hc).
    exists k, row, l. repeat (split; [assumption|]).
    apply classes_under_sample_elem in Hc as (Hy' & Hkey & Hq).
    apply classes_under_sample_elem. repeat (split; [assumption|]).
    assert (H0 : (0 <= inject_Z (Z.of_nat (length X)))%Q)
      by (change 0%Q with (inject_Z 0); rewrite <- Zle_Qle; lia).
    nra.
Qed.

(** X12: the rows kept and the distinct indices removed share out
    [range(n_samples)]: their numbers add up to the number of samples, and
    the two outputs have as many rows. *)
Theorem kept_and_removed_add_up X y self s' out :
  _sample enn_fit_sample kneighbors X y self = (s', Ok out) ->
  exists index_a1 index_a2,
    stage_a1 enn_fit_sample X y self = (self, Ok index_a1)
    /\ stage_a2 kneighbors X y self = (s', Ok index_a2)
    /\ length (X_resampled out) = length (y_resampled out)
    /\ length (y_resampled out) + length (np_union1d index_a1 index_a2)
       = length y.
Proof.
  intros H.
  apply _sample_Ok_inv in H
    as (a1 & a2 & retained & Ha1 & Ha2 & Hret & HX & HY & _).
  exists a1, a2. repeat (split; [assumption|]).
  apply np_take_lookup in HX as [HlenX _].
  apply np_take_lookup in HY as [HlenY _].
  split; [congruence|]. rewrite HlenY.
  destruct (index_target_class_of_spec _ _ _ _ Hret) as (Hsorted & Hbound & Hmem).
  rewrite <- length_app.
  transitivity (length (seq 0 (length y))); [|apply length_seq].
  apply Permutation_length, NoDup_Permutation.
  - apply NoDup_app. split; [by apply sorted_lt_NoDup|].
    split; [|apply sorted_lt_NoDup, np_unique_sorted].
    intros i Hi Hu. apply Hmem in Hi as (_ & Hn1 & Hn2).
    apply np_union1d_elem in Hu as [?|?]; contradiction.
  - apply NoDup_seq.
  - intros i. rewrite elem_of_app, Hmem, np_union1d_elem, elem_of_seq. split.
    + intros [(? & _)|Hu]; [lia|]. specialize (Hbound i Hu). lia.
    + intros [_ Hi]. simpl in Hi.
      destruct (decide (i ∈ a1)); [by right; left|].
      destruct (decide (i ∈ a2)); [by right; right|]. left. auto.
Qed.

(** X13: whether it returns or raises, the cleaning pass leaves the
    constructor parameters, [ratio_] and [X_shape_] as they were; the only
    attribute it may write is [nn_], refitted on [X]. *)
Theorem _sample_writes_only_nn_ X y self s' outcome :
  _sample enn_fit_sample kneighbors X y self = (s', outcome) ->
  get_params s' = get_params self
  /\ ratio_ s' = ratio_ self
  /\ X_shape_ s' = X_shape_ self
  /\ (nn_ s' = nn_ self
      \/ exists nn, nn_ self = Some nn /\ nn_ s' = Some (nn_fit X nn)).
Proof.
  intros H. apply _sample_state_cases in H as [->|(nn & Hnn & ->)].
  - repeat split; auto.
  - repeat split; try reflexivity. right. eauto.
Qed.

(** ** Fitting, then cleaning *)

(** X14: a fit that returns has checked the configuration and left a fresh,
    unfitted provider that searches for one neighbour more than
    [n_neighbors]; in the cleaning pass that follows, when the provider
    answers each query with as many indices as it searches for, every
    neighbourhood (first column dropped) has [n_neighbors] entries. *)
Theorem fit_sets_neighbourhood_size X y self s0 s1 :
  base_fit X y self = (s0, Ok tt) ->
  get_params s0 = get_params self ->
  fit base_fit X y self = (s1, Ok tt) ->
  kind_sel s1 ∈ SEL_KIND
  /\ (0 <= threshold_cleaning s1 /\ threshold_cleaning s1 <= 1)%Q
  /\ nn_ s1 = Some (mkNearestNeighbors (n_neighbors self + 1) (n_jobs self) None)
  /\ forall X' y' s2 index_a2,
       stage_a2 kneighbors X' y' s1 = (s2, Ok index_a2) ->
       (forall nn q row, kneighbors nn q = Ok row -> length row = nn_n_neighbors nn) ->
       exists class_minority neighbours,
         min_key (Counter y') = Ok class_minority
         /\ result_mapM
              (kneighbors
                 (mkNearestNeighbors (n_neighbors self + 1) (n_jobs self) (Some X')))
              (select X' (map (fun l => (l =? class_minority)%Z) y'))
            = Ok neighbours
         /\ Forall (fun row => length row = n_neighbors self)
              (map (drop 1) neighbours).
Proof.
  intros Hbase Hp Hfit.
  assert (Hks : kind_sel s0 = kind_sel self)
    by (unfold get_params in Hp; congruence).
  assert (Ht : threshold_cleaning s0 = threshold_cleaning self)
    by (unfold get_params in Hp; congruence).
  assert (Hj : n_jobs s0 = n_jobs self) by (unfold get_params in Hp; congruence).
  assert (Hn : n_neighbors s0 = n_neighbors self)
    by (unfold get_params in Hp; congruence).
  rewrite (fit_after_base _ _ _ _ _ Hbase) in Hfit.
  assert (Hs : s1 = with_nn_ s0) by (inversion Hfit; reflexivity).
  destruct (decide (kind_sel s0 ∈ SEL_KIND)) as [Hin|Hout];
    [|rewrite bool_decide_eq_false_2 in Hfit by assumption; inversion Hfit].
  rewrite bool_decide_eq_true_2 in Hfit by assumption. simpl in Hfit.
  destruct (_ || _) eqn:Hb; [inversion Hfit|].
  assert (Hrange : (0 <= threshold_cleaning s0 /\ threshold_cleaning s0 <= 1)%Q).
  { apply orb_false_iff in Hb as [H1 H0].
    apply not_true_iff_false in H1, H0. rewrite Qlt_bool_iff in H1, H0.
    split; by apply Qnot_lt_le. }
  subst s1. split; [exact Hin|]. split; [exact Hrange|].
  split; [unfold with_nn_; simpl; by rewrite Hj, Hn|].
  intros X' y' s2 a2 Ha2 Hcontract.
  apply stage_a2_Ok_inv in Ha2
    as (cm & r & nn & X_class & y_class & nb & lab & nb_bool
        & Hmin & _ & Hnn & _ & HX & _ & Hnb & _).
  unfold with_nn_ in Hnn. simpl in Hnn. rewrite Hj, Hn in Hnn.
  inversion Hnn; subst nn. clear Hnn.
  apply np_mask_Ok_inv in HX as [_ ->].
  exists cm, nb. split; [assumption|]. split; [exact Hnb|].
  apply result_mapM_Forall2 in Hnb.
  apply Forall_forall. intros row Hrow.
  change (map (drop 1) nb) with (drop 1 <$> nb) in Hrow.
  apply list_elem_of_fmap in Hrow as (row' & -> & Hrow').
  apply list_elem_of_lookup in Hrow' as (k & Hk).
  destruct (Forall2_lookup_r _ _ _ _ _ Hnb Hk) as (q & _ & Hq).
  apply Hcontract in Hq. simpl in Hq. rewrite length_drop, Hq. lia.
Qed.

(** X15: fit followed by the cleaning pass returns a cleaned data set when
    the configuration is accepted, the inherited fit returns with [ratio_]
    set, [X] and [y] have as many rows, at least one, and the collaborators
    answer with indices of rows of [X]. *)
Theorem fit_sample_returns X y self s0 r :
  base_fit X y self = (s0, Ok tt) ->
  get_params s0 = get_params self ->
  ratio_ s0 = Some r ->
  kind_sel self ∈ SEL_KIND ->
  (0 <= threshold_cleaning self /\ threshold_cleaning self <= 1)%Q ->
  length X = length y ->
  y <> [] ->
  (exists X_enn y_enn index_not_a1,
     enn_fit_sample (enn_of self) X y = Ok (X_enn, y_enn, index_not_a1)
     /\ forall i, i ∈ index_not_a1 -> i < length y) ->
  (forall q, q ∈ X ->
     exists row,
       kneighbors
         (mkNearestNeighbors (n_neighbors self + 1) (n_jobs self) (Some X)) q
       = Ok row
       /\ forall i, i ∈ row -> i < length y) ->
  exists out,
    fit_sample base_fit enn_fit_sample kneighbors X y self
    = (set_nn_ (mkNearestNeighbors (n_neighbors self + 1) (n_jobs self) (Some X))
         (with_nn_ s0),
       Ok out).
Proof.
  intros Hbase Hp Hr Hk Hrange Hlen Hy Henn Hkn.
  assert (Hks : kind_sel s0 = kind_sel self)
    by (unfold get_params in Hp; congruence).
  assert (Ht : threshold_cleaning s0 = threshold_cleaning self)
    by (unfold get_params in Hp; congruence).
  assert (Hj : n_jobs s0 = n_jobs self) by (unfold get_params in Hp; congruence).
  assert (Hn : n_neighbors s0 = n_neighbors self)
    by (unfold get_params in Hp; congruence).
  assert (Hfit : fit base_fit X y self = (with_nn_ s0, Ok tt)).
  { rewrite (fit_after_base _ _ _ _ _ Hbase), Hks, Ht.
    rewrite bool_decide_eq_true_2 by assumption. simpl.
    replace (_ || _) with false; [reflexivity|].
    symmetry. apply not_true_iff_false. rewrite out_of_range_iff. tauto. }
  assert (Henn_of : enn_of (with_nn_ s0) = enn_of self).
  { unfold get_params in Hp. unfold enn_of, with_nn_. simpl.
    f_equal; congruence. }
  destruct (_sample_returns enn_fit_sample kneighbors X y (with_nn_ s0) r
              (mkNearestNeighbors (n_neighbors self + 1) (n_jobs self) None))
    as (out & Hout); try assumption.
  - unfold with_nn_. simpl. by rewrite Hj, Hn.
  - unfold with_nn_. simpl. by rewrite Hks.
  - by rewrite Henn_of.
  - exists out. unfold fit_sample. rewrite (bind_Ok _ _ _ _ _ Hfit). exact Hout.
Qed.

End MoreProperties.

(** X16: the Edited Nearest Neighbours pass matters to the cleaning pass only
    through the set of indices it returns: the cleaned [X] and [y] it
    returns are dropped, and neither the order nor a repetition in its index
    array changes the result. *)
Theorem enn_selection_matters_as_a_set {Row : Type}
    (enn enn' : EditedNearestNeighbours -> list Row -> list Z ->
                result (list Row * list Z * list nat))
    (kneighbors : NearestNeighbors Row -> Row -> result (list nat))
    (X : list Row) (y : list Z) (self : NeighbourhoodCleaningRule Row)
    X_enn y_enn kept X_enn' y_enn' kept' :
  enn (enn_of self) X y = Ok (X_enn, y_enn, kept) ->
  enn' (enn_of self) X y = Ok (X_enn', y_enn', kept') ->
  (forall i, i ∈ kept <-> i ∈ kept') ->
  _sample enn kneighbors X y self = _sample enn' kneighbors X y self.
Proof.
  intros He He' Hsame.
  assert (Ha1 : stage_a1 enn X y self = stage_a1 enn' X y self).
  { unfold stage_a1, bind, lift, get, ret. simpl. rewrite He, He'.
    unfold assign_false.
    assert (Hb : in_bounds (length (np_ones (length y))) kept
                 = in_bounds (length (np_ones (length y))) kept').
    { apply eq_true_iff_eq. rewrite !in_bounds_spec.
      split; intros H i Hi; apply H, Hsame, Hi. }
    rewrite Hb. destruct (in_bounds _ kept'); [|reflexivity].
    do 2 f_equal. apply sorted_lt_ext; try apply flatnonzero_sorted.
    intros i. rewrite !flatnonzero_spec, !foldr_clear_lookup, Hsame. reflexivity. }
  unfold _sample, bind. rewrite Ha1. reflexivity.
Qed.

(** X17: on valid input the cleaning pass returns: the object is fitted with
    an accepted [kind_sel], [X] and [y] have as many rows, at least one, the
    Edited Nearest Neighbours pass returns indices of rows of [X] and so does
    every neighbour query.  The object it leaves has [nn_] refitted on
    [X]. *)
Theorem cleaning_pass_returns {Row : Type}
    (enn_fit_sample : EditedNearestNeighbours -> list Row -> list Z ->
                      result (list Row * list Z * list nat))
    (kneighbors : NearestNeighbors Row -> Row -> result (list nat))
    (X : list Row) (y : list Z) (self : NeighbourhoodCleaningRule Row)
    (r : gmap Z nat) (nn : NearestNeighbors Row) :
  length X = length y ->
  y <> [] ->
  ratio_ self = Some r ->
  nn_ self = Some nn ->
  kind_sel self ∈ SEL_KIND ->
  (exists X_enn y_enn index_not_a1,
     enn_fit_sample (enn_of self) X y = Ok (X_enn, y_enn, index_not_a1)
     /\ forall i, i ∈ index_not_a1 -> i < length y) ->
  (forall q, q ∈ X ->
     exists row, kneighbors (nn_fit X nn) q = Ok row
                 /\ forall i, i ∈ row -> i < length y) ->
  exists out,
    _sample enn_fit_sample kneighbors X y self
    = (set_nn_ (nn_fit X nn) self, Ok out)
    /\ length (X_resampled out) = length (y_resampled out)
    /\ length (y_resampled out) <= length y.
Proof.
  intros Hlen Hy Hr Hnn Hk Henn Hkn.
  destruct (_sample_returns enn_fit_sample kneighbors X y self r nn
              Hlen Hy Hr Hnn Hk Henn Hkn) as (out & Hout).
  exists out. split; [exact Hout|].
  apply _sample_Ok_inv in Hout
    as (a1 & a2 & retained & _ & _ & Hret & HX & HY & _).
  apply np_take_lookup in HX as [HlenX _].
  apply np_take_lookup in HY as [HlenY _].
  split; [congruence|]. rewrite HlenY.
  destruct (index_target_class_of_spec _ _ _ _ Hret) as (Hsorted & _ & Hmem).
  assert (Hle : length retained <= length (seq 0 (length y))).
  { apply submseteq_length, NoDup_submseteq; [by apply sorted_lt_NoDup|].
    intros i Hi. apply elem_of_seq. apply Hmem in Hi as [Hi _]. lia. }
  by rewrite length_seq in Hle.
Qed.

(** * The further properties on concrete data *)

Lemma insert_by_length (p : Z * nat) (l : list (Z * nat)) :
  length (insert_by p l) = S (length l).
Proof.
  induction l as [|q l IH]; simpl; [reflexivity|].
  destruct (closer p q); simpl; [reflexivity | by rewrite IH].
Qed.

Lemma brute_kneighbors_length (nn : NearestNeighbors point) (q : point)
    (row : list nat) :
  brute_kneighbors nn q = Ok row -> length row = nn_n_neighbors nn.
Proof.
  unfold brute_kneighbors. destruct (nn_fit_X nn) as [fitted|]; [|discriminate].
  destruct (length fitted <? nn_n_neighbors nn) eqn:E; [discriminate|].
  apply Nat.ltb_ge in E. intros H. inversion H. clear H.
  rewrite length_take.
  change (map snd ?l) with (snd <$> l). rewrite length_fmap.
  assert (Hsort : forall l : list (Z * nat),
            length (foldr insert_by [] l) = length l).
  { induction l as [|p l IH]; simpl; [reflexivity|].
    by rewrite insert_by_length, IH. }
  rewrite Hsort, length_imap. lia.
Qed.

Lemma in_bounds_elem (n : nat) (idx : list nat) :
  in_bounds n idx = true -> forall i, i ∈ idx -> i < n.
Proof. apply in_bounds_spec. Qed.

Lemma brute_kneighbors_X1 (q : point) :
  q ∈ X1 ->
  exists row,
    brute_kneighbors (mkNearestNeighbors 4 1 (Some X1)) q = Ok row
    /\ forall i, i ∈ row -> i < length y1.
Proof.
  intros Hq. unfold X1 in Hq.
  repeat (apply elem_of_cons in Hq as [->|Hq];
          [eexists; split; [vm_compute; reflexivity
                           | apply in_bounds_elem; reflexivity]|]).
  by apply elem_of_nil in Hq.
Qed.

Lemma enn1_X1 :
  exists X_enn y_enn index_not_a1,
    enn1 (enn_of fitted1) X1 y1 = Ok (X_enn, y_enn, index_not_a1)
    /\ forall i, i ∈ index_not_a1 -> i < length y1.
Proof.
  eexists _, _, _. split; [vm_compute; reflexivity|].
  apply in_bounds_elem. reflexivity.
Qed.

Lemma class_minority_is_least_frequent_witness :
  y1 <> []
  /\ min_key (Counter y1) = Ok 0%Z
  /\ 0%Z ∈ y1
  /\ forall c, c ∈ y1 -> occ 0%Z y1 <= occ c y1.
Proof.
  assert (H0 : y1 <> []) by discriminate.
  assert (H1 : min_key (Counter y1) = Ok 0%Z) by (vm_compute; reflexivity).
  destruct (class_minority_is_least_frequent y1) as (_ & _ & Hleast).
  split; [exact H0|]. split; [exact H1|]. exact (Hleast 0%Z H1).
Defined.

Lemma _sample_before_fit_raises_witness :
  y1 <> []
  /\ enn1 (enn_of ncr0) X1 y1
     = Ok ([[0]; [1]; [2]; [10]; [11]; [13]]%Z, [0; 0; 2; 2; 2; 2]%Z,
           [0; 1; 2; 3; 4; 6])
  /\ (forall i, i ∈ [0; 1; 2; 3; 4; 6] -> i < length y1)
  /\ _sample enn1 brute_kneighbors X1 y1 ncr0 = (ncr0, Raise AttributeError).
Proof.
  assert (H0 : y1 <> []) by discriminate.
  assert (H1 : enn1 (enn_of ncr0) X1 y1
               = Ok ([[0]; [1]; [2]; [10]; [11]; [13]]%Z, [0; 0; 2; 2; 2; 2]%Z,
                     [0; 1; 2; 3; 4; 6])) by (vm_compute; reflexivity).
  assert (H2 : forall i, i ∈ [0; 1; 2; 3; 4; 6] -> i < length y1)
    by (apply in_bounds_elem; reflexivity).
  repeat (split; [assumption|]).
  exact (_sample_before_fit_raises enn1 brute_kneighbors X1 y1
           (RatioStr "auto") false RandomNone None 3 "all"%string (1#2)%Q 1%Z
           _ _ _ H0 H1 H2).
Defined.

Lemma _sample_empty_y_raises_witness :
  enn_stub [] (enn_of fitted1) [] [] = Ok ([], [], [])
  /\ _sample (enn_stub []) brute_kneighbors [] [] fitted1
     = (fitted1, Raise ValueError).
Proof.
  assert (H : enn_stub [] (enn_of fitted1) [] [] = Ok ([], [], []))
    by reflexivity.
  split; [exact H|].
  exact (_sample_empty_y_raises (enn_stub []) brute_kneighbors [] fitted1 _ _ _ H).
Defined.

Lemma _sample_unknown_kind_sel_raises_witness :
  length X1 = length y1
  /\ y1 <> []
  /\ ratio_ fitted1_median = Some r0
  /\ nn_ fitted1_median = Some (mkNearestNeighbors 4 1 None)
  /\ (kind_sel fitted1_median ∉ SEL_KIND)
  /\ _sample enn1 brute_kneighbors X1 y1 fitted1_median
     = (set_nn_ (mkNearestNeighbors 4 1 (Some X1)) fitted1_median,
        Raise UnboundLocalError).
Proof.
  assert (H0 : length X1 = length y1) by reflexivity.
  assert (H1 : y1 <> []) by discriminate.
  assert (H2 : ratio_ fitted1_median = Some r0) by reflexivity.
  assert (H3 : nn_ fitted1_median = Some (mkNearestNeighbors 4 1 None))
    by reflexivity.
  assert (H4 : kind_sel fitted1_median ∉ SEL_KIND)
    by (apply (bool_decide_eq_false (kind_sel fitted1_median ∈ SEL_KIND));
        vm_compute; reflexivity).
  repeat (split; [assumption|]).
  exact (_sample_unknown_kind_sel_raises enn1 brute_kneighbors X1 y1
           fitted1_median r0 (mkNearestNeighbors 4 1 None)
           H0 H1 H2 H3 H4 enn1_X1 brute_kneighbors_X1).
Defined.

Lemma collaborator_errors_propagate_witness :
  length X1 = length y1
  /\ y1 <> []
  /\ ratio_ fitted1_starved = Some r0
  /\ nn_ fitted1_starved = Some (mkNearestNeighbors 10 1 None)
  /\ (forall q, q ∈ X1 ->
        brute_kneighbors (mkNearestNeighbors 10 1 (Some X1)) q = Raise ValueError)
  /\ _sample enn1 brute_kneighbors X1 y1 fitted1_starved
     = (set_nn_ (mkNearestNeighbors 10 1 (Some X1)) fitted1_starved,
        Raise ValueError).
Proof.
  assert (H0 : length X1 = length y1) by reflexivity.
  assert (H1 : y1 <> []) by discriminate.
  assert (H2 : ratio_ fitted1_starved = Some r0) by reflexivity.
  assert (H3 : nn_ fitted1_starved = Some (mkNearestNeighbors 10 1 None))
    by reflexivity.
  assert (H4 : forall q, q ∈ X1 ->
            brute_kneighbors (mkNearestNeighbors 10 1 (Some X1)) q
            = Raise ValueError) by (intros q _; reflexivity).
  repeat (split; [assumption|]).
  destruct (collaborator_errors_propagate enn1 brute_kneighbors X1 y1
              fitted1_starved ValueError) as [_ Hkn].
  exact (Hkn r0 (mkNearestNeighbors 10 1 None) H0 H1 H2 H3 enn1_X1 H4).
Defined.

Lemma all_kind_without_label_zero_cleans_nothing_witness :
  kind_sel fitted0 = "all"%string
  /\ (0%Z ∉ y0)
  /\ _sample (enn_stub (seq 0 7)) brute_kneighbors X0 y0 fitted0
     = (after0, Ok (mkResampled X0 y0 None))
  /\ stage_a2 brute_kneighbors X0 y0 fitted0 = (after0, Ok [])
  /\ exists index_a1 index_target_class,
       stage_a1 (enn_stub (seq 0 7)) X0 y0 fitted0 = (fitted0, Ok index_a1)
       /\ np_take X0 index_target_class = Ok X0
       /\ np_take y0 index_target_class = Ok y0
       /\ forall i, i ∈ index_target_class <-> i < length y0 /\ i ∉ index_a1.
Proof.
  assert (H0 : kind_sel fitted0 = "all"%string) by reflexivity.
  assert (H1 : 0%Z ∉ y0)
    by (apply (bool_decide_eq_false (0%Z ∈ y0)); vm_compute; reflexivity).
  assert (H2 : _sample (enn_stub (seq 0 7)) brute_kneighbors X0 y0 fitted0
               = (after0, Ok (mkResampled X0 y0 None)))
    by (vm_compute; reflexivity).
  repeat (split; [assumption|]).
  exact (all_kind_without_label_zero_cleans_nothing (enn_stub (seq 0 7))
           brute_kneighbors X0 y0 fitted0 after0 _ H0 H1 H2).
Defined.

Lemma mode_kind_compares_mode_with_minority_witness :
  kind_sel fitted1_mode = "mode"%string
  /\ stage_a2 brute_kneighbors X1 y1 fitted1_mode
     = (set_nn_ (mkNearestNeighbors 4 1 (Some X1)) fitted1_mode, Ok [2; 3])
  /\ exists r nn class_minority neighbours,
       ratio_ fitted1_mode = Some r
       /\ nn_ fitted1_mode = Some nn
       /\ min_key (Counter y1) = Ok class_minority
       /\ result_mapM (brute_kneighbors (nn_fit X1 nn))
            (select X1 (map (fun l => (l =? class_minority)%Z) y1)) = Ok neighbours
       /\ forall i,
            i ∈ [2; 3]
            <-> exists k row labels l,
                  map (drop 1) neighbours !! k = Some row
                  /\ np_take y1 row = Ok labels
                  /\ mode_row labels <> class_minority
                  /\ i ∈ row /\ y1 !! i = Some l
                  /\ l ∈ classes_under_sample r (threshold_cleaning fitted1_mode)
                           (length X1) (Counter y1).
Proof.
  assert (H0 : kind_sel fitted1_mode = "mode"%string) by reflexivity.
  assert (H1 : stage_a2 brute_kneighbors X1 y1 fitted1_mode
               = (set_nn_ (mkNearestNeighbors 4 1 (Some X1)) fitted1_mode,
                  Ok [2; 3])) by (vm_compute; reflexivity).
  repeat (split; [assumption|]).
  exact (mode_kind_compares_mode_with_minority brute_kneighbors X1 y1
           fitted1_mode _ _ H0 H1).
Defined.

Lemma threshold_one_cleans_nothing_witness :
  (1 <= threshold_cleaning fitted1_threshold_one)%Q
  /\ stage_a2 brute_kneighbors X1 y1 fitted1_threshold_one
     = (set_nn_ (mkNearestNeighbors 4 1 (Some X1)) fitted1_threshold_one, Ok [])
  /\ @nil nat = [].
Proof.
  assert (H0 : (1 <= threshold_cleaning fitted1_threshold_one)%Q)
    by (vm_compute; discriminate).
  assert (H1 : stage_a2 brute_kneighbors X1 y1 fitted1_threshold_one
               = (set_nn_ (mkNearestNeighbors 4 1 (Some X1)) fitted1_threshold_one,
                  Ok [])) by (vm_compute; reflexivity).
  repeat (split; [assumption|]).
  exact (threshold_one_cleans_nothing brute_kneighbors X1 y1
           fitted1_threshold_one _ _ H0 H1).
Defined.

Lemma minority_not_cleaned_by_stage_a2_witness :
  ((1#2) <= threshold_cleaning fitted1)%Q
  /\ stage_a2 brute_kneighbors X1 y1 fitted1 = (after1, Ok [2; 3])
  /\ min_key (Counter y1) = Ok 0%Z
  /\ (exists c, c ∈ y1 /\ c <> 0%Z)
  /\ forall i, i ∈ [2; 3] -> y1 !! i <> Some 0%Z.
Proof.
  assert (H0 : ((1#2) <= threshold_cleaning fitted1)%Q)
    by (vm_compute; discriminate).
  assert (H1 : stage_a2 brute_kneighbors X1 y1 fitted1 = (after1, Ok [2; 3]))
    by (vm_compute; reflexivity).
  assert (H2 : min_key (Counter y1) = Ok 0%Z) by (vm_compute; reflexivity).
  assert (H3 : exists c, c ∈ y1 /\ c <> 0%Z).
  { exists 2%Z. split; [|discriminate].
    apply (bool_decide_eq_true (2%Z ∈ y1)). vm_compute. reflexivity. }
  repeat (split; [assumption|]).
  exact (minority_not_cleaned_by_stage_a2 brute_kneighbors X1 y1 fitted1
           _ _ _ H0 H1 H2 H3).
Defined.


Lemma higher_threshold_cleans_less_witness :
  (threshold_cleaning fitted1 <= 1)%Q
  /\ stage_a2 brute_kneighbors X1 y1 fitted1 = (after1, Ok [2; 3])
  /\ exists index_a2',
       stage_a2 brute_kneighbors X1 y1 (set_threshold_cleaning 1 fitted1)
       = (set_threshold_cleaning 1 after1, Ok index_a2')
       /\ forall i, i ∈ index_a2' -> i ∈ [2; 3].
Proof.
  assert (H0 : (threshold_cleaning fitted1 <= 1)%Q) by (vm_compute; discriminate).
  assert (H1 : stage_a2 brute_kneighbors X1 y1 fitted1 = (after1, Ok [2; 3]))
    by (vm_compute; reflexivity).
  repeat (split; [assumption|]).
  exact (higher_threshold_cleans_less brute_kneighbors X1 y1 fitted1 _ _ 1%Q
           H0 H1).
Defined.

Lemma kept_and_removed_add_up_witness :
  _sample enn1 brute_kneighbors X1 y1 fitted1 = (after1, Ok cleaned1)
  /\ exists index_a1 index_a2,
       stage_a1 enn1 X1 y1 fitted1 = (fitted1, Ok index_a1)
       /\ stage_a2 brute_kneighbors X1 y1 fitted1 = (after1, Ok index_a2)
       /\ length (X_resampled cleaned1) = length (y_resampled cleaned1)
       /\ length (y_resampled cleaned1) + length (np_union1d index_a1 index_a2)
          = length y1.
Proof.
  assert (H0 : _sample enn1 brute_kneighbors X1 y1 fitted1 = (after1, Ok cleaned1))
    by (vm_compute; reflexivity).
  split; [exact H0|].
  exact (kept_and_removed_add_up enn1 brute_kneighbors X1 y1 fitted1 _ _ H0).
Defined.

Lemma _sample_writes_only_nn__witness :
  _sample enn1 brute_kneighbors X1 y1 fitted1_median
  = (set_nn_ (mkNearestNeighbors 4 1 (Some X1)) fitted1_median,
     Raise UnboundLocalError)
  /\ get_params (set_nn_ (mkNearestNeighbors 4 1 (Some X1)) fitted1_median)
     = get_params fitted1_median
  /\ ratio_ (set_nn_ (mkNearestNeighbors 4 1 (Some X1)) fitted1_median)
     = ratio_ fitted1_median.
Proof.
  assert (H0 : _sample enn1 brute_kneighbors X1 y1 fitted1_median
               = (set_nn_ (mkNearestNeighbors 4 1 (Some X1)) fitted1_median,
                  Raise UnboundLocalError)) by (vm_compute; reflexivity).
  split; [exact H0|].
  destruct (_sample_writes_only_nn_ enn1 brute_kneighbors X1 y1 fitted1_median
              _ _ H0) as (Hp & Hr & _).
  split; [exact Hp | exact Hr].
Defined.

Lemma fit_sets_neighbourhood_size_witness :
  let self := set_return_indices true ncr0 in
  base_fit_stub r0 X1 y1 self = ((base_fit_stub r0 X1 y1 self).1, Ok tt)
  /\ get_params (base_fit_stub r0 X1 y1 self).1 = get_params self
  /\ fit (base_fit_stub r0) X1 y1 self = (fitted1, Ok tt)
  /\ stage_a2 brute_kneighbors X1 y1 fitted1 = (after1, Ok [2; 3])
  /\ exists class_minority neighbours,
       min_key (Counter y1) = Ok class_minority
       /\ result_mapM (brute_kneighbors (mkNearestNeighbors (3 + 1) 1 (Some X1)))
            (select X1 (map (fun l => (l =? class_minority)%Z) y1)) = Ok neighbours
       /\ Forall (fun row => length row = 3) (map (drop 1) neighbours).
Proof.
  intros self.
  assert (H0 : base_fit_stub r0 X1 y1 self
               = ((base_fit_stub r0 X1 y1 self).1, Ok tt)) by reflexivity.
  assert (H1 : get_params (base_fit_stub r0 X1 y1 self).1 = get_params self)
    by reflexivity.
  assert (H2 : fit (base_fit_stub r0) X1 y1 self = (fitted1, Ok tt))
    by (vm_compute; reflexivity).
  assert (H3 : stage_a2 brute_kneighbors X1 y1 fitted1 = (after1, Ok [2; 3]))
    by (vm_compute; reflexivity).
  repeat (split; [assumption|]).
  destruct (fit_sets_neighbourhood_size (base_fit_stub r0) brute_kneighbors
              X1 y1 self _ fitted1 H0 H1 H2) as (_ & _ & _ & Hsize).
  exact (Hsize X1 y1 after1 [2; 3] H3 brute_kneighbors_length).
Defined.

Lemma fit_sample_returns_witness :
  let self := set_return_indices true ncr0 in
  base_fit_stub r0 X1 y1 self = ((base_fit_stub r0 X1 y1 self).1, Ok tt)
  /\ get_params (base_fit_stub r0 X1 y1 self).1 = get_params self
  /\ ratio_ (base_fit_stub r0 X1 y1 self).1 = Some r0
  /\ kind_sel self ∈ SEL_KIND
  /\ (0 <= threshold_cleaning self /\ threshold_cleaning self <= 1)%Q
  /\ length X1 = length y1
  /\ y1 <> []
  /\ exists out,
       fit_sample (base_fit_stub r0) enn1 brute_kneighbors X1 y1 self
       = (set_nn_ (mkNearestNeighbors (n_neighbors self + 1) (n_jobs self) (Some X1))
            (with_nn_ (base_fit_stub r0 X1 y1 self).1),
          Ok out).
Proof.
  intros self.
  assert (H0 : base_fit_stub r0 X1 y1 self
               = ((base_fit_stub r0 X1 y1 self).1, Ok tt)) by reflexivity.
  assert (H1 : get_params (base_fit_stub r0 X1 y1 self).1 = get_params self)
    by reflexivity.
  assert (H2 : ratio_ (base_fit_stub r0 X1 y1 self).1 = Some r0) by reflexivity.
  assert (H3 : kind_sel self ∈ SEL_KIND)
    by (apply (bool_decide_eq_true (kind_sel self ∈ SEL_KIND));
        vm_compute; reflexivity).
  assert (H4 : (0 <= threshold_cleaning self /\ threshold_cleaning self <= 1)%Q)
    by (split; vm_compute; discriminate).
  assert (H5 : length X1 = length y1) by reflexivity.
  assert (H6 : y1 <> []) by discriminate.
  repeat (split; [assumption|]).
  exact (fit_sample_returns (base_fit_stub r0) enn1 brute_kneighbors X1 y1 self
           _ r0 H0 H1 H2 H3 H4 H5 H6 enn1_X1 brute_kneighbors_X1).
Defined.

Lemma enn_selection_matters_as_a_set_witness :
  enn1 (enn_of fitted1) X1 y1
  = Ok ([[0]; [1]; [2]; [10]; [11]; [13]]%Z, [0; 0; 2; 2; 2; 2]%Z,
        [0; 1; 2; 3; 4; 6])
  /\ enn_stub [6; 4; 3; 2; 1; 0; 0] (enn_of fitted1) X1 y1
     = Ok ([[13]; [11]; [10]; [2]; [1]; [0]; [0]]%Z, [2; 2; 2; 2; 0; 0; 0]%Z,
           [6; 4; 3; 2; 1; 0; 0])
  /\ (forall i, i ∈ [0; 1; 2; 3; 4; 6] <-> i ∈ [6; 4; 3; 2; 1; 0; 0])
  /\ _sample enn1 brute_kneighbors X1 y1 fitted1
     = _sample (enn_stub [6; 4; 3; 2; 1; 0; 0]) brute_kneighbors X1 y1 fitted1.
Proof.
  assert (H0 : enn1 (enn_of fitted1) X1 y1
               = Ok ([[0]; [1]; [2]; [10]; [11]; [13]]%Z, [0; 0; 2; 2; 2; 2]%Z,
                     [0; 1; 2; 3; 4; 6])) by (vm_compute; reflexivity).
  assert (H1 : enn_stub [6; 4; 3; 2; 1; 0; 0] (enn_of fitted1) X1 y1
               = Ok ([[13]; [11]; [10]; [2]; [1]; [0]; [0]]%Z,
                     [2; 2; 2; 2; 0; 0; 0]%Z, [6; 4; 3; 2; 1; 0; 0]))
    by (vm_compute; reflexivity).
  assert (H2 : forall i, i ∈ [0; 1; 2; 3; 4; 6] <-> i ∈ [6; 4; 3; 2; 1; 0; 0]).
  { intros i. rewrite !elem_of_cons, !elem_of_nil. tauto. }
  repeat (split; [assumption|]).
  exact (enn_selection_matters_as_a_set enn1 (enn_stub [6; 4; 3; 2; 1; 0; 0])
           brute_kneighbors X1 y1 fitted1 _ _ _ _ _ _ H0 H1 H2).
Defined.

Lemma cleaning_pass_returns_witness :
  length X1 = length y1
  /\ y1 <> []
  /\ ratio_ fitted1 = Some r0
  /\ nn_ fitted1 = Some (mkNearestNeighbors 4 1 None)
  /\ kind_sel fitted1 ∈ SEL_KIND
  /\ exists out,
       _sample enn1 brute_kneighbors X1 y1 fitted1
       = (set_nn_ (nn_fit X1 (mkNearestNeighbors 4 1 None)) fitted1, Ok out)
       /\ length (X_resampled out) = length (y_resampled out)
       /\ length (y_resampled out) <= length y1.
Proof.
  assert (H0 : length X1 = length y1) by reflexivity.
  assert (H1 : y1 <> []) by discriminate.
  assert (H2 : ratio_ fitted1 = Some r0) by reflexivity.
  assert (H3 : nn_ fitted1 = Some (mkNearestNeighbors 4 1 None)) by reflexivity.
  assert (H4 : kind_sel fitted1 ∈ SEL_KIND)
    by (apply (bool_decide_eq_true (kind_sel fitted1 ∈ SEL_KIND));
        vm_compute; reflexivity).
  repeat (split; [assumption|]).
  exact (cleaning_pass_returns enn1 brute_kneighbors X1 y1 fitted1 r0
           (mkNearestNeighbors 4 1 None) H0 H1 H2 H3 H4 enn1_X1 brute_kneighbors_X1).
Defined.
